(** * Building-risk analyzer: the Azure OpenAI service client

    A shallow embedding of [azure_openai_service.py]: the prompt builders,
    the assembly of the chat-completion request, the brace-span extraction of
    the JSON answer, the fallback result and the connectivity probe, with the
    properties of the specification proved about them.

    Python values are modelled as follows.
    - [str] is [string]; each [ascii] stands for one character of the text.
    - [int] is [Z]; [len] of a list is a [nat].
    - [dict] with string keys read by the service (the environment, an image
      record) is a [gmap string _]; a [dict] built or returned by the service
      is an association list in insertion order.
    - A call that may raise returns an [outcome]; only the subtree of
      [Exception] is modelled, which is what [except Exception] catches.
    - [print] has no effect on the result and is left out. *)

From Stdlib Require Import ZArith QArith Ascii String List Bool Lia.
From stdpp Require Import base option gmap strings list pretty.

Local Open Scope string_scope.
Local Open Scope Z_scope.

(** ** Exceptions and outcomes *)

(** The exception classes the service meets.  [JSONDecodeError] is the one
    [json.loads] raises on an invalid document; [OtherError] stands for any
    further subclass of [Exception] the transport may raise. *)
Inductive exc_class : Type :=
  | ExceptionClass
  | ValueError
  | KeyError
  | IndexError
  | JSONDecodeError
  | OtherError (name : string).

(** An exception object: its class, [str(e)], and [e.__context__], which
    Python sets when an exception is raised inside an [except] block. *)
#[warning="-register-all"]
Inductive py_exception : Type :=
  | PyExc (cls : exc_class) (msg : string) (context : option py_exception).

Definition exc_cls (e : py_exception) : exc_class :=
  match e with PyExc c _ _ => c end.

Definition exc_str (e : py_exception) : string :=
  match e with PyExc _ m _ => m end.

Definition exc_context (e : py_exception) : option py_exception :=
  match e with PyExc _ _ c => c end.

Inductive outcome (A : Type) : Type :=
  | Return (a : A)
  | Raise (e : py_exception).

Arguments Return {A} a.
Arguments Raise {A} e.

#[global] Instance outcome_ret : MRet outcome := fun A a => Return a.

#[global] Instance outcome_bind : MBind outcome := fun A B k m =>
  match m with
  | Return a => k a
  | Raise e => Raise e
  end.

(** [try: m except Exception as error: h error] *)
Definition try_except {A : Type} (m : outcome A) (h : py_exception -> outcome A)
  : outcome A :=
  match m with
  | Return a => Return a
  | Raise e => h e
  end.

Definition is_JSONDecodeError (e : py_exception) : bool :=
  match exc_cls e with
  | JSONDecodeError => true
  | _ => false
  end.

(** [try: m except json.JSONDecodeError as parse_error: h parse_error];
    an exception of another class propagates. *)
Definition try_except_JSONDecodeError {A : Type} (m : outcome A)
    (h : py_exception -> outcome A) : outcome A :=
  match m with
  | Return a => Return a
  | Raise e => if is_JSONDecodeError e then h e else Raise e
  end.

(** ** Scalar values *)

(** The scalar values found in an image record or in a response attribute. *)
Inductive pyval : Type :=
  | PNone
  | PBool (b : bool)
  | PInt (z : Z)
  | PStr (s : string).

Definition str_nonempty (s : string) : bool :=
  match s with
  | EmptyString => false
  | String _ _ => true
  end.

(** [bool(v)] *)
Definition py_truthy (v : pyval) : bool :=
  match v with
  | PNone => false
  | PBool b => b
  | PInt z => negb (z =? 0)
  | PStr s => str_nonempty s
  end.

(** [str(v)], which is also what an f-string field renders. *)
Definition py_str (v : pyval) : string :=
  match v with
  | PNone => "None"
  | PBool true => "True"
  | PBool false => "False"
  | PInt z => pretty z
  | PStr s => s
  end.

(** [bool(v)] for an optional string, [None] being falsy. *)
Definition opt_truthy (o : option string) : bool :=
  match o with
  | None => false
  | Some s => str_nonempty s
  end.

(** ** String operations *)

Definition str_len (s : string) : Z := Z.of_nat (String.length s).

(** [s.startswith(sub)] *)
Fixpoint startswith (s sub : string) {struct sub} : bool :=
  match sub with
  | EmptyString => true
  | String b sub' =>
      match s with
      | EmptyString => false
      | String a s' => Ascii.eqb a b && startswith s' sub'
      end
  end.

(** [sub in s] *)
Fixpoint str_contains (sub s : string) : bool :=
  startswith s sub ||
  match s with
  | EmptyString => false
  | String _ s' => str_contains sub s'
  end.

(** [s.find(sub)], counting from offset [i]: the lowest index, or -1. *)
Fixpoint find_from (sub s : string) (i : Z) : Z :=
  if startswith s sub then i
  else match s with
       | EmptyString => -1
       | String _ s' => find_from sub s' (i + 1)
       end.

Definition str_find (s sub : string) : Z := find_from sub s 0.

(** [s.rfind(sub)], counting from offset [i]: the highest index, or -1. *)
Fixpoint rfind_from (sub s : string) (i : Z) : Z :=
  match s with
  | EmptyString => if startswith s sub then i else -1
  | String _ s' =>
      let r := rfind_from sub s' (i + 1) in
      if 0 <=? r then r else if startswith s sub then i else -1
  end.

Definition str_rfind (s sub : string) : Z := rfind_from sub s 0.

(** A slice bound as Python normalises it: a negative bound counts from the
    end, and the result is clamped to [0 .. len]. *)
Definition slice_bound (len i : Z) : Z :=
  if i <? 0 then Z.max (i + len) 0 else Z.min i len.

(** [s[start:stop]] *)
Definition str_slice (s : string) (start stop : Z) : string :=
  let lo := slice_bound (str_len s) start in
  let hi := slice_bound (str_len s) stop in
  if lo <? hi then substring (Z.to_nat lo) (Z.to_nat (hi - lo)) s
  else EmptyString.

Definition lbrace : string := "{".
Definition rbrace : string := "}".

(** [content[content.find('{'):content.rfind('}')+1]] *)
Definition json_span (content : string) : string :=
  str_slice content (str_find content lbrace) (str_rfind content rbrace + 1).

(** ** Data model *)

(** What [json.loads] returns and what the service hands to its caller.  A
    [dict] is kept as its items in insertion order; a float keeps the text
    it was written with. *)
#[warning="-register-all"]
Inductive json : Type :=
  | JNull
  | JBool (b : bool)
  | JInt (z : Z)
  | JFloat (lexeme : string)
  | JStr (s : string)
  | JList (elems : list json)
  | JDict (items : list (string * json)).

(** [d.get(key)] on an association list. *)
Fixpoint assoc_get (key : string) (items : list (string * json)) : option json :=
  match items with
  | [] => None
  | (k, v) :: rest => if String.eqb k key then Some v else assoc_get key rest
  end.

Definition dict_get (key : string) (d : json) : option json :=
  match d with
  | JDict items => assoc_get key items
  | _ => None
  end.

Definition dict_keys (d : json) : list string :=
  match d with
  | JDict items => map fst items
  | _ => []
  end.

(** One element of [image_data]: a [dict] with the keys [base64], [type],
    [name] and optionally [size]. *)
Abbreviation image := (gmap string pyval).

(** The argument of [analyze_building_risks]: a list of image records, or
    one record that is not wrapped in a list. *)
Inductive image_arg : Type :=
  | ImageList (images : list image)
  | SingleImage (img : image).

(** One block of the user message's content. *)
Inductive content_block : Type :=
  | TextBlock (text : string)
  | ImageUrlBlock (url : string) (detail : string).

Inductive message_content : Type :=
  | TextContent (text : string)
  | BlockContent (blocks : list content_block).

Record chat_message : Type := {
  role : string;
  content : message_content
}.

(** The keyword arguments of [client.chat.completions.create]. *)
Record chat_request : Type := {
  messages : list chat_message;
  max_tokens : Z;
  temperature : Q;
  model : option string
}.

(** The part of a completion the service reads: [response.error] when the
    attribute exists, and [choices[i].message.content]. *)
Record chat_choice : Type := {
  message_content_of : option string
}.

Record chat_response : Type := {
  error : option pyval;
  choices : list chat_choice
}.

(** The [AzureOpenAI] client object: the connection values it was built
    with.  Its constructor belongs to the provider's library and is taken to
    succeed on the values [__init__] has checked. *)
Record AzureOpenAI : Type := {
  azure_endpoint : option string;
  client_api_key : option string;
  client_api_version : string
}.

(** [l[i]] for a list, raising [IndexError] out of range. *)
Definition list_index {A : Type} (l : list A) (i : nat) : outcome A :=
  match l !! i with
  | Some x => Return x
  | None => Raise (PyExc IndexError "list index out of range" None)
  end.

(** [d[key]] for an image record; [str(KeyError(key))] is the quoted key. *)
Definition dict_index (d : image) (key : string) : outcome pyval :=
  match d !! key with
  | Some v => Return v
  | None => Raise (PyExc KeyError ("'" +:+ key +:+ "'") None)
  end.

(** ** The service *)

Definition dquote : string := String "034"%char EmptyString.
Definition newline : string := String "010"%char EmptyString.
Definition quoted (s : string) : string := dquote +:+ s +:+ dquote.

Module AzureOpenAIService.

Record t : Type := {
  endpoint : option string;
  api_key : option string;
  deployment : option string;
  api_version : string;
  client : AzureOpenAI
}.

(** [os.getenv(key)] in environment [environ]. *)
Definition getenv (environ : gmap string string) (key : string) : option string :=
  environ !! key.

(** [__init__], run in the environment left by [load_dotenv()]. *)
Definition __init__ (environ : gmap string string) : outcome t :=
  let endpoint := getenv environ "4.1_OPENAI_ENDPOINT" in
  let api_key := getenv environ "4.1_OPENAI_API_KEY" in
  let deployment := getenv environ "4.1_OPENAI_DEPLOYMENT_NAME" in
  let api_version := "2024-04-01-preview" in
  if negb (forallb opt_truthy [endpoint; api_key; deployment]) then
    Raise (PyExc ValueError
             "Missing Azure OpenAI configuration. Please check your .env file."
             None)
  else
    Return {| endpoint := endpoint;
              api_key := api_key;
              deployment := deployment;
              api_version := api_version;
              client := {| azure_endpoint := endpoint;
                           client_api_key := api_key;
                           client_api_version := api_version |} |}.

Definition _get_system_prompt (image_count : Z) : string :=
  String.concat newline [
    "You are an expert insurance underwriter specializing in building risk assessment. ";
    "You are analyzing " +:+ pretty image_count +:+ " image"
      +:+ (if 1 <? image_count then "s" else EmptyString)
      +:+ " of the same building from different angles/perspectives to provide a comprehensive risk assessment.";
    EmptyString;
    (if 1 <? image_count
     then "Consider all images together to form a complete picture of the building and its risks. Look for consistent patterns across images and note any contradictions or additional context provided by multiple viewpoints."
     else "Analyze the provided building image and identify potential risks.");
    EmptyString;
    "Focus on these key risk categories:";
    EmptyString;
    "**Fire & Life Safety Risks:**";
    "- Emergency exits (number, location, width, accessibility)";
    "- Exit routes and egress paths";
    "- Fire suppression systems (sprinklers, extinguishers)";
    "- Fire-resistant materials and construction";
    "- Smoke detection systems";
    EmptyString;
    "**Structural & Construction Risks:**";
    "- Building age and condition indicators";
    "- Construction materials (wood, steel, concrete)";
    "- Roof condition and materials";
    "- Foundation and structural integrity";
    "- Seismic vulnerabilities";
    EmptyString;
    "**Security Risks:**";
    "- Access control and entry points";
    "- Lighting adequacy";
    "- Perimeter security";
    "- Surveillance coverage";
    EmptyString;
    "**Water Damage & Flood Risks:**";
    "- Proximity to water sources";
    "- Drainage systems";
    "- Below-grade areas";
    "- Plumbing condition";
    EmptyString;
    "**Occupancy & Usage Risks:**";
    "- Occupancy load vs exit capacity";
    "- Hazardous activities or storage";
    "- Mixed-use considerations";
    "- Accessibility compliance";
    EmptyString;
    "**Environmental & Location Risks:**";
    "- Surrounding hazards";
    "- Natural disaster exposure";
    "- Utility infrastructure proximity";
    EmptyString;
    "Provide your analysis in the following JSON format:";
    "{";
    "  " +:+ quoted "overall_risk_level" +:+ ": " +:+ quoted "LOW|MEDIUM|HIGH" +:+ ",";
    "  " +:+ quoted "risk_score" +:+ ": 1-10,";
    "  " +:+ quoted "images_analyzed" +:+ ": " +:+ pretty image_count +:+ ",";
    "  " +:+ quoted "key_findings" +:+ ": [" +:+ quoted "finding1" +:+ ", " +:+ quoted "finding2" +:+ ", " +:+ quoted "finding3" +:+ "],";
    "  " +:+ quoted "detailed_assessment" +:+ ": {";
    "    " +:+ quoted "fire_safety" +:+ ": {";
    "      " +:+ quoted "risk_level" +:+ ": " +:+ quoted "LOW|MEDIUM|HIGH" +:+ ",";
    "      " +:+ quoted "observations" +:+ ": [" +:+ quoted "observation1" +:+ ", " +:+ quoted "observation2" +:+ "],";
    "      " +:+ quoted "concerns" +:+ ": [" +:+ quoted "concern1" +:+ ", " +:+ quoted "concern2" +:+ "]";
    "    },";
    "    " +:+ quoted "structural" +:+ ": {";
    "      " +:+ quoted "risk_level" +:+ ": " +:+ quoted "LOW|MEDIUM|HIGH" +:+ ",";
    "      " +:+ quoted "observations" +:+ ": [" +:+ quoted "observation1" +:+ ", " +:+ quoted "observation2" +:+ "],";
    "      " +:+ quoted "concerns" +:+ ": [" +:+ quoted "concern1" +:+ ", " +:+ quoted "concern2" +:+ "]";
    "    },";
    "    " +:+ quoted "security" +:+ ": {";
    "      " +:+ quoted "risk_level" +:+ ": " +:+ quoted "LOW|MEDIUM|HIGH" +:+ ",";
    "      " +:+ quoted "observations" +:+ ": [" +:+ quoted "observation1" +:+ ", " +:+ quoted "observation2" +:+ "],";
    "      " +:+ quoted "concerns" +:+ ": [" +:+ quoted "concern1" +:+ ", " +:+ quoted "concern2" +:+ "]";
    "    },";
    "    " +:+ quoted "water_damage" +:+ ": {";
    "      " +:+ quoted "risk_level" +:+ ": " +:+ quoted "LOW|MEDIUM|HIGH" +:+ ",";
    "      " +:+ quoted "observations" +:+ ": [" +:+ quoted "observation1" +:+ ", " +:+ quoted "observation2" +:+ "],";
    "      " +:+ quoted "concerns" +:+ ": [" +:+ quoted "concern1" +:+ ", " +:+ quoted "concern2" +:+ "]";
    "    },";
    "    " +:+ quoted "environmental" +:+ ": {";
    "      " +:+ quoted "risk_level" +:+ ": " +:+ quoted "LOW|MEDIUM|HIGH" +:+ ",";
    "      " +:+ quoted "observations" +:+ ": [" +:+ quoted "observation1" +:+ ", " +:+ quoted "observation2" +:+ "],";
    "      " +:+ quoted "concerns" +:+ ": [" +:+ quoted "concern1" +:+ ", " +:+ quoted "concern2" +:+ "]";
    "    }";
    "  },";
    "  " +:+ quoted "recommendations" +:+ ": [" +:+ quoted "recommendation1" +:+ ", " +:+ quoted "recommendation2" +:+ ", " +:+ quoted "recommendation3" +:+ "],";
    "  " +:+ quoted "additional_information_needed" +:+ ": [" +:+ quoted "info1" +:+ ", " +:+ quoted "info2" +:+ "],";
    "  " +:+ quoted "image_analysis_summary" +:+ ": "
      +:+ quoted (if 1 <? image_count
                  then "Summary of what was observed across all images and how they complement each other"
                  else "Summary of the single image analysis");
    "}";
    EmptyString;
    "Be thorough but realistic in your assessment. Only identify risks that are clearly visible or reasonably inferred from the images. "
      +:+ (if 1 <? image_count
           then "When analyzing multiple images, provide insights that benefit from having multiple perspectives of the same building."
           else EmptyString)
  ].

Definition _get_user_prompt (image_count : Z) : string :=
  if 1 <? image_count then
    "Please analyze these " +:+ pretty image_count +:+ " building images for comprehensive insurance underwriting risk assessment. These images show different angles and aspects of the same building. Provide a thorough evaluation considering all visible risk factors across all images."
  else
    "Please analyze this building image for insurance underwriting risk assessment. Provide a comprehensive evaluation of all visible risk factors.".

Definition fallback_category : json :=
  JDict [("risk_level", JStr "MEDIUM"); ("observations", JList []);
         ("concerns", JList [])].

Definition _create_fallback_response (content : string) (image_count : Z) : json :=
  JDict [
    ("overall_risk_level", JStr "MEDIUM");
    ("risk_score", JInt 5);
    ("images_analyzed", JInt image_count);
    ("key_findings", JList [JStr "Analysis completed - see detailed response"]);
    ("raw_response", JStr content);
    ("detailed_assessment", JDict [
      ("fire_safety", fallback_category);
      ("structural", fallback_category);
      ("security", fallback_category);
      ("water_damage", fallback_category);
      ("environmental", fallback_category)
    ]);
    ("recommendations", JList [JStr "Review detailed analysis"]);
    ("additional_information_needed", JList []);
    ("image_analysis_summary",
      JStr ("Analysis of " +:+ pretty image_count +:+ " building image"
            +:+ (if 1 <? image_count then "s" else EmptyString)
            +:+ " completed"))
  ].

Section Calls.

(** The two collaborators outside the repository: [json.loads] of the
    standard library, and [client.chat.completions.create], the call to the
    hosted model. *)
Variable json_loads : string -> outcome json.
Variable chat_completions_create : AzureOpenAI -> chat_request -> outcome chat_response.

(** [image_data if isinstance(image_data, list) else [image_data]] *)
Definition normalize_images (image_data : image_arg) : list image :=
  match image_data with
  | ImageList images => images
  | SingleImage img => [img]
  end.

(** The block appended for one image; the f-string reads [img['type']]
    first, then [img['base64']]. *)
Definition image_url_block (img : image) : outcome content_block :=
  type ← dict_index img "type";
  base64 ← dict_index img "base64";
  mret (ImageUrlBlock ("data:" +:+ py_str type +:+ ";base64," +:+ py_str base64)
                      "high").

(** [for img in images: user_content.append(...)] *)
Fixpoint append_image_blocks (user_content : list content_block)
    (images : list image) : outcome (list content_block) :=
  match images with
  | [] => Return user_content
  | img :: rest =>
      block ← image_url_block img;
      append_image_blocks (user_content ++ [block]) rest
  end.

(** The keyword arguments of the analysis call. *)
Definition completion_request (self : t) (system_prompt : string)
    (user_content : list content_block) (image_count : Z) : chat_request :=
  {| messages := [ {| role := "system"; content := TextContent system_prompt |};
                   {| role := "user"; content := BlockContent user_content |} ];
     max_tokens := if 1 <? image_count then 3000 else 2000;
     temperature := (3 # 10)%Q;
     model := deployment self |}.

(** The inner [try]: extraction of the brace span and parsing. *)
Definition parse_content (content : string) (image_count : Z) : outcome json :=
  try_except_JSONDecodeError
    (let json_match := json_span content in
     if str_nonempty json_match then json_loads json_match
     else Return (_create_fallback_response content image_count))
    (fun parse_error => Return (_create_fallback_response content image_count)).

(** [content = response.choices[0].message.content] and what follows it. *)
Definition read_content (response : chat_response) (image_count : Z)
  : outcome json :=
  choice ← list_index (choices response) 0;
  match message_content_of choice with
  | Some content =>
      if negb (str_nonempty content) then
        Raise (PyExc ExceptionClass
                 "No response content received from Azure OpenAI" None)
      else parse_content content image_count
  | None =>
      Raise (PyExc ExceptionClass
               "No response content received from Azure OpenAI" None)
  end.

(** What follows the model call inside the outer [try], starting with
    [if hasattr(response, 'error') and response.error]. *)
Definition read_response (response : chat_response) (image_count : Z)
  : outcome json :=
  match error response with
  | Some err =>
      if py_truthy err then
        Raise (PyExc ExceptionClass
                 ("Azure OpenAI API Error: " +:+ py_str err) None)
      else read_content response image_count
  | None => read_content response image_count
  end.

(** The outer [except Exception as error]: the error is re-raised as a plain
    [Exception] whose text embeds [str(error)]; raised inside the handler, it
    has [error] as its context. *)
Definition reraise (error : py_exception) : outcome json :=
  Raise (PyExc ExceptionClass ("Risk analysis failed: " +:+ exc_str error)
               (Some error)).

(** The request the analysis sends, when its assembly does not raise. *)
Definition analysis_request (self : t) (image_data : image_arg)
  : outcome chat_request :=
  let images := normalize_images image_data in
  let image_count := Z.of_nat (length images) in
  let system_prompt := _get_system_prompt image_count in
  let user_prompt := _get_user_prompt image_count in
  user_content ← append_image_blocks [TextBlock user_prompt] images;
  mret (completion_request self system_prompt user_content image_count).

Definition analyze_building_risks (self : t) (image_data : image_arg)
  : outcome json :=
  try_except
    (let images := normalize_images image_data in
     let image_count := Z.of_nat (length images) in
     request ← analysis_request self image_data;
     response ← chat_completions_create (client self) request;
     read_response response image_count)
    reraise.

(** The keyword arguments of the connectivity probe. *)
Definition health_request (self : t) : chat_request :=
  {| messages :=
       [ {| role := "system"; content := TextContent "You are a helpful assistant." |};
         {| role := "user";
            content := TextContent
              "Hello, please respond with 'OK' to confirm connectivity." |} ];
     max_tokens := 10;
     temperature := 0%Q;
     model := deployment self |}.

Definition health_check (self : t) : bool :=
  match
    response ← chat_completions_create (client self) (health_request self);
    choice ← list_index (choices response) 0;
    mret (str_contains "OK" (default EmptyString (message_content_of choice)))
  with
  | Return ok => ok
  | Raise error => false
  end.

End Calls.

End AzureOpenAIService.

(** ** A reference instance of the collaborators

    The theorems below hold for every parser and every transport.  To run
    the service on concrete replies, this module provides a parser for JSON
    texts over the characters of [string] (a [\u] escape is decoded when it
    denotes one of them), and transports with a fixed behaviour. *)
Module Reference.

Definition is_ws (c : ascii) : bool :=
  match c with
  | " "%char | "009"%char | "010"%char | "013"%char => true
  | _ => false
  end.

Fixpoint skip_ws (s : string) : string :=
  match s with
  | String c s' => if is_ws c then skip_ws s' else s
  | EmptyString => s
  end.

Definition is_digit (c : ascii) : bool :=
  (48 <=? nat_of_ascii c)%nat && (nat_of_ascii c <=? 57)%nat.

Fixpoint take_digits (s : string) : string * string :=
  match s with
  | String c s' =>
      if is_digit c
      then let '(digits, rest) := take_digits s' in (String c digits, rest)
      else (EmptyString, s)
  | EmptyString => (EmptyString, EmptyString)
  end.

Definition digits_value (digits : string) : Z :=
  fold_left (fun acc c => 10 * acc + Z.of_nat (nat_of_ascii c - 48))
            (list_ascii_of_string digits) 0.

(** The rest of [s] after the prefix [p], when [s] starts with it. *)
Fixpoint strip_prefix (p s : string) : option string :=
  match p with
  | EmptyString => Some s
  | String b p' =>
      match s with
      | String a s' => if Ascii.eqb a b then strip_prefix p' s' else None
      | EmptyString => None
      end
  end.

(** A number as the scanner's pattern reads it: an integer part, then a
    fraction and an exponent when they are complete. *)
Definition parse_number (s : string) : option (json * string) :=
  let '(sign, s1) :=
    match s with
    | String "-"%char r => ("-", r)
    | _ => (EmptyString, s)
    end in
  match s1 with
  | String c r0 =>
      if is_digit c then
        let '(int_part, r1) :=
          if Ascii.eqb c "0" then ("0", r0) else take_digits s1 in
        let '(frac, r2) :=
          match r1 with
          | String "."%char r =>
              let '(digits, r') := take_digits r in
              if str_nonempty digits then ("." +:+ digits, r')
              else (EmptyString, r1)
          | _ => (EmptyString, r1)
          end in
        let '(exponent, r3) :=
          match r2 with
          | String e r =>
              if Ascii.eqb e "e" || Ascii.eqb e "E" then
                let '(esign, r') :=
                  match r with
                  | String "+"%char r' => ("+", r')
                  | String "-"%char r' => ("-", r')
                  | _ => (EmptyString, r)
                  end in
                let '(digits, r'') := take_digits r' in
                if str_nonempty digits
                then (String e esign +:+ digits, r'')
                else (EmptyString, r2)
              else (EmptyString, r2)
          | EmptyString => (EmptyString, r2)
          end in
        if str_nonempty frac || str_nonempty exponent
        then Some (JFloat (sign +:+ int_part +:+ frac +:+ exponent), r3)
        else Some (JInt (if str_nonempty sign then - digits_value int_part
                         else digits_value int_part), r3)
      else None
  | EmptyString => None
  end.

Definition hex_value (c : ascii) : option nat :=
  let n := nat_of_ascii c in
  if is_digit c then Some (n - 48)%nat
  else if (97 <=? n)%nat && (n <=? 102)%nat then Some (n - 87)%nat
  else if (65 <=? n)%nat && (n <=? 70)%nat then Some (n - 55)%nat
  else None.

Definition unescape (c : ascii) : option ascii :=
  match c with
  | "034"%char => Some "034"%char
  | "\"%char => Some "\"%char
  | "/"%char => Some "/"%char
  | "b"%char => Some "008"%char
  | "f"%char => Some "012"%char
  | "n"%char => Some "010"%char
  | "r"%char => Some "013"%char
  | "t"%char => Some "009"%char
  | _ => None
  end.

Definition unicode_escape (h1 h2 h3 h4 : ascii) : option ascii :=
  a ← hex_value h1; b ← hex_value h2; c ← hex_value h3; d ← hex_value h4;
  let code := (((a * 16 + b) * 16 + c) * 16 + d)%nat in
  if (code <? 256)%nat then Some (ascii_of_nat code) else None.

(** The text of a string after its opening quote, up to the closing one. *)
Fixpoint parse_string_body (s : string) : option (string * string) :=
  match s with
  | EmptyString => None
  | String "034"%char r => Some (EmptyString, r)
  | String "\"%char (String "u"%char (String h1 (String h2 (String h3 (String h4 r))))) =>
      c ← unicode_escape h1 h2 h3 h4;
      '(text, rest) ← parse_string_body r;
      Some (String c text, rest)
  | String "\"%char (String e r) =>
      c ← unescape e;
      '(text, rest) ← parse_string_body r;
      Some (String c text, rest)
  | String "\"%char EmptyString => None
  | String c r =>
      if (nat_of_ascii c <? 32)%nat then None
      else '(text, rest) ← parse_string_body r; Some (String c text, rest)
  end.

(** [d[key] = v] on an association list: a repeated key keeps its place and
    takes the later value. *)
Fixpoint assoc_set (key : string) (v : json) (items : list (string * json))
  : list (string * json) :=
  match items with
  | [] => [(key, v)]
  | (k, x) :: rest =>
      if String.eqb k key then (k, v) :: rest
      else (k, x) :: assoc_set key v rest
  end.

Section Composite.

Variable value : string -> option (json * string).

(** The elements of an array, [s] standing at the first of them. *)
Fixpoint parse_elements (fuel : nat) (s : string) (acc : list json)
  : option (json * string) :=
  match fuel with
  | O => None
  | S fuel' =>
      '(v, r) ← value s;
      match skip_ws r with
      | String ","%char r' => parse_elements fuel' (skip_ws r') (acc ++ [v])
      | String "]"%char r' => Some (JList (acc ++ [v]), r')
      | _ => None
      end
  end.

(** The members of an object, [s] standing at the first key. *)
Fixpoint parse_members (fuel : nat) (s : string) (acc : list (string * json))
  : option (json * string) :=
  match fuel with
  | O => None
  | S fuel' =>
      match s with
      | String "034"%char r =>
          '(key, r1) ← parse_string_body r;
          match skip_ws r1 with
          | String ":"%char r2 =>
              '(v, r3) ← value (skip_ws r2);
              match skip_ws r3 with
              | String ","%char r4 =>
                  parse_members fuel' (skip_ws r4) (assoc_set key v acc)
              | String "}"%char r4 => Some (JDict (assoc_set key v acc), r4)
              | _ => None
              end
          | _ => None
          end
      | _ => None
      end
  end.

End Composite.

Definition parse_constant (s : string) : option (json * string) :=
  match strip_prefix "null" s with
  | Some r => Some (JNull, r)
  | None =>
  match strip_prefix "true" s with
  | Some r => Some (JBool true, r)
  | None =>
  match strip_prefix "false" s with
  | Some r => Some (JBool false, r)
  | None =>
  match strip_prefix "NaN" s with
  | Some r => Some (JFloat "NaN", r)
  | None =>
  match strip_prefix "Infinity" s with
  | Some r => Some (JFloat "Infinity", r)
  | None =>
  match strip_prefix "-Infinity" s with
  | Some r => Some (JFloat "-Infinity", r)
  | None => None
  end end end end end end.

Fixpoint parse_value (fuel : nat) (s : string) : option (json * string) :=
  match fuel with
  | O => None
  | S fuel' =>
      match s with
      | String "{"%char r =>
          match skip_ws r with
          | String "}"%char r' => Some (JDict [], r')
          | r' => parse_members (parse_value fuel') fuel' r' []
          end
      | String "["%char r =>
          match skip_ws r with
          | String "]"%char r' => Some (JList [], r')
          | r' => parse_elements (parse_value fuel') fuel' r' []
          end
      | String "034"%char r =>
          '(text, r') ← parse_string_body r; Some (JStr text, r')
      | _ =>
          match parse_number s with
          | Some result => Some result
          | None => parse_constant s
          end
      end
  end.

(** The parser: one value between optional white space, and nothing else. *)
Definition json_loads (s : string) : outcome json :=
  match parse_value (S (String.length s)) (skip_ws s) with
  | Some (v, rest) =>
      match skip_ws rest with
      | EmptyString => Return v
      | String _ _ => Raise (PyExc JSONDecodeError "Extra data" None)
      end
  | None => Raise (PyExc JSONDecodeError "Expecting value" None)
  end.

(** A transport whose completion holds one choice with the given text. *)
Definition replying (text : string) (client : AzureOpenAI)
    (request : chat_request) : outcome chat_response :=
  Return {| error := None;
            choices := [ {| message_content_of := Some text |} ] |}.

(** A transport that cannot reach the endpoint. *)
Definition unreachable (client : AzureOpenAI) (request : chat_request)
  : outcome chat_response :=
  Raise (PyExc (OtherError "APIConnectionError") "Connection error." None).

(** An uploaded picture as [app.py] passes it. *)
Definition png (name data : string) (size : Z) : image :=
  {[ "base64" := PStr data; "type" := PStr "image/png";
     "name" := PStr name; "size" := PInt size ]}.

(** An environment with the three connection values. *)
Definition configured : gmap string string :=
  {[ "4.1_OPENAI_ENDPOINT" := "https://example.openai.azure.com";
     "4.1_OPENAI_API_KEY" := "secret";
     "4.1_OPENAI_DEPLOYMENT_NAME" := "gpt-4.1" ]}.

(** The service [__init__] builds in that environment. *)
Definition service : AzureOpenAIService.t :=
  {| AzureOpenAIService.endpoint := Some "https://example.openai.azure.com";
     AzureOpenAIService.api_key := Some "secret";
     AzureOpenAIService.deployment := Some "gpt-4.1";
     AzureOpenAIService.api_version := "2024-04-01-preview";
     AzureOpenAIService.client :=
       {| azure_endpoint := Some "https://example.openai.azure.com";
          client_api_key := Some "secret";
          client_api_version := "2024-04-01-preview" |} |}.

(** Three uploads of the same building. *)
Definition three_pictures : list image :=
  [png "front.png" "QUJD" 3; png "side.png" "REVG" 3; png "roof.png" "R0hJ" 3].

(** The members of the object of the specification's first end-to-end
    scenario, and the reply that wraps the object in prose. *)
Definition scenario_members : string :=
  quoted "overall_risk_level" +:+ ":" +:+ quoted "HIGH" +:+ ","
  +:+ quoted "risk_score" +:+ ":8,"
  +:+ quoted "images_analyzed" +:+ ":3,"
  +:+ quoted "key_findings" +:+ ":[" +:+ quoted "cracked facade" +:+ "],"
  +:+ quoted "detailed_assessment" +:+ ":{},"
  +:+ quoted "recommendations" +:+ ":[],"
  +:+ quoted "additional_information_needed" +:+ ":[],"
  +:+ quoted "image_analysis_summary" +:+ ":" +:+ quoted "x".

Definition scenario_prose : string := "Here is the result: ".

Definition scenario_reply : string :=
  scenario_prose +:+ "{" +:+ scenario_members +:+ "}".

Definition scenario_object : json :=
  JDict [("overall_risk_level", JStr "HIGH");
         ("risk_score", JInt 8);
         ("images_analyzed", JInt 3);
         ("key_findings", JList [JStr "cracked facade"]);
         ("detailed_assessment", JDict []);
         ("recommendations", JList []);
         ("additional_information_needed", JList []);
         ("image_analysis_summary", JStr "x")].

End Reference.

(** ** The application ([app.py])

    The Streamlit page is modelled by the calls it makes to Streamlit, in
    order, and by the two entries it keeps in the session state.  A call is
    recorded with the text it shows; arguments that only style a widget are
    left out, and a [with] block is recorded by a call that enters it and
    one that leaves it.  The texts shown, which hold symbols outside ASCII,
    are kept as the bytes of the source file.  The clicks and the uploads of
    a run are its input.  The event loop made around each call of the
    service has no effect on the result and is left out. *)

(** The blocks a call can be nested in. *)
Inductive st_container : Type :=
  | Sidebar
  | Container
  | Spinner (text : string)
  | Column (index : nat).

Inductive st_call : Type :=
  | st_title (body : string)
  | st_markdown (body : string)
  | st_divider
  | st_header (body : string)
  | st_subheader (body : string)
  | st_success (body : string)
  | st_error (body : string)
  | st_info (body : string)
  | st_warning (body : string)
  | st_button (label : string)
  | st_file_uploader (label : string)
  | st_columns (spec : nat)
  | st_image (caption : string)
  | st_enter (block : st_container)
  | st_leave (block : st_container).

(** What a run has shown so far, and [st.session_state]. *)
Record page : Type := {
  calls : list st_call;
  analysis_result : option json;
  analysis_timestamp : option Z
}.

(** A file of [st.file_uploader]: its name and its content. *)
Record upload : Type := {
  file_name : string;
  file_content : list Byte.byte
}.

(** What the user did before a run: the return values of the two buttons
    and of the uploader. *)
Record interaction : Type := {
  health_clicked : bool;
  uploaded_files : list upload;
  analyze_clicked : bool
}.

(** A step of the page: it may raise, and it changes the page. *)
Definition ui (A : Type) : Type := page -> outcome A * page.

#[global] Instance ui_ret : MRet ui := fun A a w => (Return a, w).

#[global] Instance ui_bind : MBind ui := fun A B k m w =>
  match m w with
  | (Return a, w') => k a w'
  | (Raise e, w') => (Raise e, w')
  end.

Definition lift {A : Type} (o : outcome A) : ui A := fun w => (o, w).

Definition emit (c : st_call) : ui unit := fun w =>
  (Return tt,
   {| calls := calls w ++ [c];
      analysis_result := analysis_result w;
      analysis_timestamp := analysis_timestamp w |}).

(** [try: m except Exception as e: h e], on the page. *)
Definition ui_try {A : Type} (m : ui A) (h : py_exception -> ui A) : ui A :=
  fun w =>
    match m w with
    | (Return a, w') => (Return a, w')
    | (Raise e, w') => h e w'
    end.

(** [with block: m]; the block is left also when [m] raises. *)
Definition within {A : Type} (block : st_container) (m : ui A) : ui A :=
  fun w =>
    match emit (st_enter block) w with
    | (_, w1) =>
        match m w1 with
        | (r, w2) => (r, snd (emit (st_leave block) w2))
        end
    end.

(** [pass] *)
Definition pass : ui unit := fun w => (Return tt, w).

(** [st.button(label)], whose return value is part of the input. *)
Definition button (label : string) (clicked : bool) : ui bool :=
  _ ← emit (st_button label); mret clicked.

Module BuildingRiskAnalyzer.

Record t : Type := {
  ai_service : option AzureOpenAIService.t
}.

Section App.

(** Outside the repository: the parser and the transport of the service;
    [Image.open] and [image.save(buffer, format='PNG')] of the imaging
    library, each of which may raise; [base64.b64encode(...).decode()]; the
    reading of the clock; and the exception [st.columns] raises for a spec
    without columns. *)
Variable json_loads : string -> outcome json.
Variable chat_completions_create : AzureOpenAI -> chat_request -> outcome chat_response.
Variable pil_image : Type.
Variable image_open : upload -> outcome pil_image.
Variable save_png : pil_image -> outcome (list Byte.byte).
Variable b64encode : list Byte.byte -> string.
Variable now : Z.
Variable columns_error : py_exception.

(** Stands for [_display_analysis_results], whose charts and number
    formatting are outside this model: the calls it makes for a result, and
    whether it then raises. *)
Variable display_results : json -> list st_call * outcome unit.

Definition _display_analysis_results (results : json) : ui unit := fun w =>
  (snd (display_results results),
   {| calls := calls w ++ fst (display_results results);
      analysis_result := analysis_result w;
      analysis_timestamp := analysis_timestamp w |}).

(** [__init__], which ends with [_initialize_service]. *)
Definition _initialize_service (environ : gmap string string) : ui t :=
  ui_try
    (service ← lift (AzureOpenAIService.__init__ environ);
     _ ← emit (st_success "✅ Azure OpenAI service initialized successfully");
     mret {| ai_service := Some service |})
    (fun e =>
       _ ← emit (st_error ("❌ Failed to initialize Azure OpenAI service: "
                           +:+ exc_str e));
       _ ← emit (st_info "Please check your .env file configuration");
       mret {| ai_service := None |}).

(** [self.ai_service.method]: reading an attribute of [None] raises. *)
Definition service_of (self : t) (method : string)
  : outcome AzureOpenAIService.t :=
  match ai_service self with
  | Some service => Return service
  | None =>
      Raise (PyExc (OtherError "AttributeError")
                   ("'NoneType' object has no attribute '" +:+ method +:+ "'")
                   None)
  end.

Definition _check_service_health (self : t) : ui unit :=
  within (Spinner "Checking service health...")
    (ui_try
       (service ← lift (service_of self "health_check");
        let is_healthy :=
          AzureOpenAIService.health_check chat_completions_create service in
        if is_healthy then emit (st_success "✅ All services healthy")
        else emit (st_warning "⚠️ Service connectivity issues"))
       (fun e => emit (st_error ("❌ Health check failed: " +:+ exc_str e)))).

Definition _render_sidebar (self : t) (input : interaction) : ui unit :=
  within Sidebar
    (_ ← emit (st_header "📋 Analysis Overview");
     clicked ← button "🔍 Check Service Health" (health_clicked input);
     _ ← (if (clicked : bool) then _check_service_health self else pass);
     _ ← emit st_divider;
     _ ← emit (st_subheader "🎯 Risk Categories");
     _ ← within Container (emit (st_info (String.concat newline [
    EmptyString;
    "                **Categories analyzed:**";
    "                • 🔥 Fire & Life Safety";
    "                • 🏗️ Structural & Construction";
    "                • 🔒 Security  ";
    "                • 💧 Water Damage & Flood";
    "                • 🌍 Environmental & Location";
    "                "
          ])));
     _ ← emit st_divider;
     _ ← emit (st_subheader "ℹ️ How it works");
     within Container (emit (st_success (String.concat newline [
    EmptyString;
    "                **Process:**";
    "                1. **Upload Images**: Add up to 10 building images";
    "                2. **AI Analysis**: Azure OpenAI Vision analyzes the images  ";
    "                3. **Risk Assessment**: Get comprehensive risk evaluation";
    "                4. **Recommendations**: Receive actionable insights";
    "                "
       ])))).

(** The record appended to [image_data] for one upload. *)
Definition image_record (file : upload) : outcome image :=
  picture ← image_open file;
  buffer ← save_png picture;
  mret ({[ "base64" := PStr (b64encode buffer);
           "type" := PStr "image/png";
           "name" := PStr (file_name file);
           "size" := PInt (Z.of_nat (length buffer)) ]} : image).

(** [for file in uploaded_files: ... image_data.append(...)] *)
Fixpoint prepare_images (image_data : list image) (files : list upload)
  : outcome (list image) :=
  match files with
  | [] => Return image_data
  | file :: rest =>
      record ← image_record file;
      prepare_images (image_data ++ [record]) rest
  end.

Definition store_result (result : json) : ui unit := fun w =>
  (Return tt,
   {| calls := calls w;
      analysis_result := Some result;
      analysis_timestamp := Some now |}).

Definition _perform_analysis (self : t) (files : list upload) : ui unit :=
  within (Spinner "Analyzing building images for risk assessment...")
    (ui_try
       (image_data ← lift (prepare_images [] files);
        service ← lift (service_of self "analyze_building_risks");
        analysis_result ←
          lift (AzureOpenAIService.analyze_building_risks json_loads
                  chat_completions_create service (ImageList image_data));
        _ ← store_result analysis_result;
        _display_analysis_results analysis_result)
       (fun e => emit (st_error ("❌ Analysis failed: " +:+ exc_str e)))).

(** [st.columns(spec)] for a number of columns. *)
Definition columns (spec : nat) : ui (list st_container) :=
  _ ← emit (st_columns spec);
  match spec with
  | O => lift (Raise columns_error)
  | S _ => mret (map Column (seq 0 spec))
  end.

(** [for idx, file in enumerate(uploaded_files): with cols[idx % 4]: ...] *)
Fixpoint show_uploads (cols : list st_container) (idx : nat)
    (files : list upload) : ui unit :=
  match files with
  | [] => pass
  | file :: rest =>
      col ← lift (list_index cols (idx mod 4));
      _ ← within col
            (picture ← lift (image_open file);
             emit (st_image (file_name file)));
      show_uploads cols (S idx) rest
  end.

Definition _handle_file_upload (self : t) (input : interaction)
    (files : list upload) : ui unit :=
  if (10 <? length files)%nat then
    emit (st_error "Please upload a maximum of 10 images")
  else
    _ ← emit (st_subheader "📸 Uploaded Images");
    cols ← columns (length files `min` 4);
    _ ← show_uploads cols 0 files;
    clicked ← button "🔍 Analyze Building Risks" (analyze_clicked input);
    if (clicked : bool) then _perform_analysis self files else pass.

Definition run (self : t) (input : interaction) : ui unit :=
  _ ← emit (st_title "🏢 Building Safety Risk Analyzer");
  _ ← emit (st_markdown
              "**AI-powered building risk assessment for insurance underwriting**");
  _ ← emit st_divider;
  _ ← _render_sidebar self input;
  match ai_service self with
  | None =>
      emit (st_error
              "Service not available. Please configure your environment variables.")
  | Some _ =>
      _ ← emit (st_file_uploader "Upload Building Images");
      match uploaded_files input with
      | [] => pass
      | _ :: _ => _handle_file_upload self input (uploaded_files input)
      end
  end.

(** [main]: a run of the script in the given environment. *)
Definition main (environ : gmap string string) (input : interaction) : ui unit :=
  app ← _initialize_service environ;
  run app input.

End App.

End BuildingRiskAnalyzer.

(** A page on which nothing was shown and nothing is stored. *)
Definition blank_page : page :=
  {| calls := []; analysis_result := None; analysis_timestamp := None |}.

(** The calls that show the uploads from position [idx] on, each in the
    column of its position modulo four. *)
Fixpoint preview_calls (idx : nat) (files : list upload) : list st_call :=
  match files with
  | [] => []
  | file :: rest =>
      [st_enter (Column (idx mod 4)); st_image (file_name file);
       st_leave (Column (idx mod 4))]
      ++ preview_calls (S idx) rest
  end.

(** The page [w] after the further calls [shown]. *)
Definition showing (w : page) (shown : list st_call) : page :=
  {| calls := calls w ++ shown;
     analysis_result := analysis_result w;
     analysis_timestamp := analysis_timestamp w |}.

(** ** Further reference instances *)
Module Fixtures.

(** A transport that returns the given completion. *)
Definition answering (response : chat_response) (client : AzureOpenAI)
    (request : chat_request) : outcome chat_response :=
  Return response.

(** An imaging library for which a picture is its bytes: an empty file is
    not a picture, and every picture is saved as it is. *)
Definition image_open (file : upload) : outcome (list Byte.byte) :=
  match file_content file with
  | [] => Raise (PyExc (OtherError "UnidentifiedImageError")
                       "cannot identify image file" None)
  | _ :: _ => Return (file_content file)
  end.

Definition save_png (picture : list Byte.byte) : outcome (list Byte.byte) :=
  Return picture.

(** A stand-in for the base64 text of some bytes: two hexadecimal digits
    per byte. *)
Definition hex_digit (n : N) : ascii :=
  if (n <? 10)%N then ascii_of_N (48 + n) else ascii_of_N (87 + n).

Definition b64encode (bytes : list Byte.byte) : string :=
  string_of_list_ascii
    (flat_map (fun b => let n := Byte.to_N b in
                        [hex_digit (n / 16); hex_digit (n mod 16)])
              bytes).

(** A rendering that shows one header and does not raise. *)
Definition display_results (results : json) : list st_call * outcome unit :=
  ([st_header "Risk Analysis Results"], Return tt).

Definition columns_error : py_exception :=
  PyExc (OtherError "StreamlitAPIException") "invalid column spec" None.

Definition picture (name : string) : upload :=
  {| file_name := name; file_content := [Byte.x50; Byte.x4e; Byte.x47] |}.

Definition broken (name : string) : upload :=
  {| file_name := name; file_content := [] |}.

Definition idle : interaction :=
  {| health_clicked := false; uploaded_files := []; analyze_clicked := false |}.

End Fixtures.

(** ** Vocabulary of the statements *)

(** An image record from which a content block can be built. *)
Definition image_ok (img : image) : Prop :=
  is_Some (img !! "type") /\ is_Some (img !! "base64").

(** The completion reports no error: the attribute is missing or falsy. *)
Definition no_error (response : chat_response) : Prop :=
  match error response with
  | Some err => py_truthy err = false
  | None => True
  end.

(** The transport returned a completion without error whose first choice
    has the content [content]. *)
Definition replies_with (r : outcome chat_response) (content : option string)
  : Prop :=
  exists response choice rest,
    r = Return response /\ no_error response /\
    choices response = choice :: rest /\ message_content_of choice = content.

(** The number of images of a call, as [len(images)] computes it. *)
Definition count_of (image_data : image_arg) : Z :=
  Z.of_nat (length (AzureOpenAIService.normalize_images image_data)).

(** A connection value is absent when its variable is unset or holds the
    empty text. *)
Definition absent (value : option string) : Prop :=
  value = None \/ value = Some EmptyString.

(** The exception that leaves [analyze_building_risks] for the cause
    [cause]. *)
Definition analysis_failed (cause : py_exception) : py_exception :=
  PyExc ExceptionClass ("Risk analysis failed: " +:+ exc_str cause) (Some cause).

(** * Properties *)

(** ** Python string operations *)

Section StringFacts.

Implicit Types (s sub pre post : string) (c a : ascii) (i : Z).

Lemma str_append_cons a s1 s2 : String a s1 +:+ s2 = String a (s1 +:+ s2).
Proof. reflexivity. Qed.

Lemma str_append_nil s : EmptyString +:+ s = s.
Proof. reflexivity. Qed.

Lemma str_append_assoc s1 s2 s3 : (s1 +:+ s2) +:+ s3 = s1 +:+ (s2 +:+ s3).
Proof.
  induction s1 as [|a s1 IH]; [done |].
  by rewrite !str_append_cons, IH.
Qed.

Lemma str_append_empty s : s +:+ EmptyString = s.
Proof.
  induction s as [|a s IH]; [done |].
  by rewrite str_append_cons, IH.
Qed.

Lemma str_len_nonneg s : 0 <= str_len s.
Proof. unfold str_len. lia. Qed.

Lemma str_len_cons a s : str_len (String a s) = 1 + str_len s.
Proof. unfold str_len. simpl. lia. Qed.

Lemma str_len_app s1 s2 : str_len (s1 +:+ s2) = str_len s1 + str_len s2.
Proof.
  induction s1 as [|a s1 IH]; [done |].
  change (String a s1 +:+ s2) with (String a (s1 +:+ s2)).
  rewrite !str_len_cons, IH. lia.
Qed.

Lemma str_nonempty_false s : str_nonempty s = false -> s = EmptyString.
Proof. by destruct s. Qed.

(** [startswith] and [in] say what their names say. *)
Lemma startswith_iff s sub :
  startswith s sub = true <-> exists post, s = sub +:+ post.
Proof.
  revert s. induction sub as [|b sub IH]; intros s; simpl.
  - split; [intros _; by exists s | done].
  - destruct s as [|a s].
    + split; [done | intros [post H]; discriminate].
    + rewrite andb_true_iff, Ascii.eqb_eq, IH. split.
      * intros [-> [post ->]]. by exists post.
      * intros [post H]. injection H as -> ->. eauto.
Qed.

Lemma str_contains_iff sub s :
  str_contains sub s = true <-> exists pre post, s = pre +:+ sub +:+ post.
Proof.
  induction s as [|a s IH].
  - simpl. rewrite orb_false_r, startswith_iff. split.
    + intros [post H]. by exists EmptyString, post.
    + intros [pre [post H]]. destruct pre; [by exists post | discriminate].
  - cbn [str_contains]. rewrite orb_true_iff, startswith_iff, IH. split.
    + intros [[post H] | [pre [post H]]].
      * by exists EmptyString, post.
      * exists (String a pre), post. simpl. by rewrite H.
    + intros [pre [post H]]. destruct pre as [|b pre].
      * left. by exists post.
      * right. injection H as -> ->. eauto.
Qed.

(** The needle of the service's searches is one character. *)
Lemma startswith_char a s c :
  startswith (String a s) (String c EmptyString) = Ascii.eqb a c.
Proof. simpl. by rewrite andb_true_r. Qed.

Lemma str_contains_cons c a s :
  str_contains (String c EmptyString) (String a s)
  = Ascii.eqb a c || str_contains (String c EmptyString) s.
Proof. cbn [str_contains]. by rewrite startswith_char. Qed.

Lemma find_from_absent c s i :
  str_contains (String c EmptyString) s = false ->
  find_from (String c EmptyString) s i = -1.
Proof.
  revert i. induction s as [|a s IH]; intros i H; [done |].
  rewrite str_contains_cons in H. apply orb_false_iff in H as [Ha Hs].
  cbn [find_from]. rewrite startswith_char, Ha. by apply IH.
Qed.

Lemma find_from_first c pre rest i :
  str_contains (String c EmptyString) pre = false ->
  find_from (String c EmptyString) (pre +:+ String c rest) i = i + str_len pre.
Proof.
  revert i. induction pre as [|a pre IH]; intros i H.
  - simpl. rewrite Ascii.eqb_refl. unfold str_len. simpl. lia.
  - rewrite str_contains_cons in H. apply orb_false_iff in H as [Ha Hs].
    change (String a pre +:+ String c rest) with (String a (pre +:+ String c rest)).
    cbn [find_from]. rewrite startswith_char, Ha, IH, str_len_cons by done. lia.
Qed.

Lemma rfind_from_absent c s i :
  str_contains (String c EmptyString) s = false ->
  rfind_from (String c EmptyString) s i = -1.
Proof.
  revert i. induction s as [|a s IH]; intros i H; [done |].
  rewrite str_contains_cons in H. apply orb_false_iff in H as [Ha Hs].
  cbn [rfind_from]. rewrite startswith_char, Ha, IH by done. done.
Qed.

Lemma rfind_from_last c pre post i :
  0 <= i ->
  str_contains (String c EmptyString) post = false ->
  rfind_from (String c EmptyString) (pre +:+ String c post) i = i + str_len pre.
Proof.
  revert i. induction pre as [|a pre IH]; intros i Hi H.
  - simpl. rewrite rfind_from_absent by done. simpl.
    rewrite Ascii.eqb_refl. unfold str_len. simpl. lia.
  - change (String a pre +:+ String c post) with (String a (pre +:+ String c post)).
    cbn [rfind_from]. rewrite IH by (done || lia).
    pose proof (str_len_nonneg pre).
    destruct (Z.leb_spec 0 (i + 1 + str_len pre)); [| lia].
    rewrite str_len_cons. lia.
Qed.

(** A text either lacks the character, or splits at its last occurrence. *)
Lemma last_occurrence c s :
  str_contains (String c EmptyString) s = false \/
  exists pre post,
    s = pre +:+ String c post /\ str_contains (String c EmptyString) post = false.
Proof.
  induction s as [|a s IH]; [by left |].
  rewrite str_contains_cons.
  destruct IH as [Hs | [pre [post [-> Hpost]]]].
  - destruct (Ascii.eqb_spec a c) as [-> | Hne].
    + right. by exists EmptyString, s.
    + left. by rewrite Hs.
  - right. by exists (String a pre), post.
Qed.

Lemma substring_at_offset pre mid post :
  substring (String.length pre) (String.length mid) (pre +:+ mid +:+ post) = mid.
Proof.
  induction pre as [|a pre IH].
  - rewrite str_append_nil. cbn [String.length].
    induction mid as [|b mid IHm].
    + rewrite str_append_nil. by destruct post.
    + rewrite str_append_cons. cbn [String.length substring]. by rewrite IHm.
  - rewrite str_append_cons. cbn [String.length substring]. exact IH.
Qed.

Lemma slice_bound_inside len i : 0 <= i <= len -> slice_bound len i = i.
Proof.
  intros H. unfold slice_bound.
  destruct (Z.ltb_spec i 0); lia.
Qed.

Lemma slice_bound_nonneg len i : 0 <= len -> 0 <= slice_bound len i.
Proof.
  intros H. unfold slice_bound.
  destruct (Z.ltb_spec i 0); lia.
Qed.

(** Slicing out the middle of a text by its offsets. *)
Lemma str_slice_middle pre mid post :
  str_slice (pre +:+ mid +:+ post) (str_len pre) (str_len pre + str_len mid) = mid.
Proof.
  unfold str_slice. rewrite !str_len_app.
  pose proof (str_len_nonneg pre). pose proof (str_len_nonneg mid).
  pose proof (str_len_nonneg post).
  rewrite !slice_bound_inside by lia.
  destruct (Z.ltb_spec (str_len pre) (str_len pre + str_len mid)) as [Hlt | Hge].
  - replace (str_len pre + str_len mid - str_len pre) with (str_len mid) by lia.
    unfold str_len. rewrite !Nat2Z.id. apply substring_at_offset.
  - destruct mid as [|b mid]; [done |].
    pose proof (str_len_nonneg mid). rewrite str_len_cons in Hge. lia.
Qed.

(** The span of a text made of prose without an opening brace, one braced
    object, and prose without a closing brace, is the object. *)
Lemma json_span_object pre body post :
  str_contains lbrace pre = false ->
  str_contains rbrace post = false ->
  json_span (pre +:+ String "{" (body +:+ String "}" post))
  = String "{" (body +:+ "}").
Proof.
  intros Hpre Hpost. unfold json_span, str_find, str_rfind.
  unfold lbrace at 1. rewrite find_from_first by done.
  replace (pre +:+ String "{" (body +:+ String "}" post))
    with ((pre +:+ String "{" body) +:+ String "}" post)
    by (rewrite str_append_assoc; done).
  unfold rbrace at 1. rewrite rfind_from_last by done.
  replace ((pre +:+ String "{" body) +:+ String "}" post)
    with (pre +:+ String "{" (body +:+ "}") +:+ post).
  2:{ by rewrite !str_append_assoc, !str_append_cons, !str_append_assoc. }
  replace (0 + str_len (pre +:+ String "{" body) + 1)
    with (str_len pre + str_len (String "{" (body +:+ "}"))).
  2:{ rewrite !str_len_app, !str_len_cons, str_len_app.
      change (str_len "}") with 1. lia. }
  rewrite Z.add_0_l. apply str_slice_middle.
Qed.

(** Without an opening brace the span is empty, or the lone closing brace
    that ends the text. *)
Lemma json_span_no_braces s :
  str_contains lbrace s = false ->
  str_contains rbrace s = false ->
  json_span s = EmptyString.
Proof.
  intros Hl Hr. unfold json_span, str_find, str_rfind, lbrace, rbrace in *.
  rewrite find_from_absent, rfind_from_absent by done.
  unfold str_slice. change (-1 + 1) with 0.
  pose proof (str_len_nonneg s).
  rewrite (slice_bound_inside _ 0) by lia.
  pose proof (slice_bound_nonneg (str_len s) (-1)).
  destruct (Z.ltb_spec (slice_bound (str_len s) (-1)) 0); [lia | done].
Qed.

Lemma json_span_rbrace_only pre post :
  str_contains lbrace (pre +:+ String "}" post) = false ->
  str_contains rbrace post = false ->
  json_span (pre +:+ String "}" post)
  = if str_nonempty post then EmptyString else rbrace.
Proof.
  intros Hl Hr. unfold json_span, str_find, str_rfind, lbrace, rbrace in *.
  rewrite find_from_absent, rfind_from_last by done.
  pose proof (str_len_nonneg pre). pose proof (str_len_nonneg post).
  unfold str_slice. rewrite str_len_app, str_len_cons.
  rewrite (slice_bound_inside _ (0 + str_len pre + 1)) by lia.
  replace (slice_bound (str_len pre + (1 + str_len post)) (-1))
    with (str_len pre + str_len post)
    by (unfold slice_bound; destruct (Z.ltb_spec (-1) 0); lia).
  destruct post as [|b post].
  - change (str_len EmptyString) with 0.
    destruct (Z.ltb_spec (str_len pre + 0) (0 + str_len pre + 1)); [| lia].
    replace (str_len pre + 0) with (str_len pre) by lia.
    replace (0 + str_len pre + 1 - str_len pre) with (str_len "}")
      by (change (str_len "}") with 1; lia).
    unfold str_len. rewrite !Nat2Z.id.
    pose proof (substring_at_offset pre "}" EmptyString) as Hsub.
    by rewrite str_append_empty in Hsub.
  - pose proof (str_len_nonneg post). rewrite str_len_cons.
    by destruct (Z.ltb_spec (str_len pre + (1 + str_len post))
                            (0 + str_len pre + 1)); [lia |].
Qed.

Lemma json_span_no_lbrace s :
  str_contains lbrace s = false ->
  json_span s = EmptyString \/ json_span s = rbrace.
Proof.
  intros Hl.
  destruct (last_occurrence "}" s) as [Hr | [pre [post [-> Hpost]]]].
  - left. by apply json_span_no_braces.
  - rewrite json_span_rbrace_only by done.
    destruct (str_nonempty post); [by left | by right].
Qed.

End StringFacts.

(** ** The analysis call *)

Import AzureOpenAIService.

Section ServiceFacts.

Variable json_loads : string -> outcome json.
Variable create : AzureOpenAI -> chat_request -> outcome chat_response.

Implicit Types (self : t) (image_data : image_arg) (images : list image)
  (request : chat_request) (response : chat_response) (text : string).

Lemma image_url_block_ok (img : image) :
  image_ok img -> exists block, image_url_block img = Return block.
Proof.
  intros [[ty Hty] [b64 Hb64]]. unfold image_url_block, dict_index.
  rewrite Hty, Hb64. simpl. eauto.
Qed.

Lemma append_image_blocks_ok images (acc : list content_block) :
  Forall image_ok images ->
  exists blocks,
    append_image_blocks acc images = Return (acc ++ blocks)%list /\
    length blocks = length images.
Proof.
  intros Hok. revert acc.
  induction Hok as [|img images Himg _ IH]; intros acc.
  - exists []. by rewrite app_nil_r.
  - destruct (image_url_block_ok img Himg) as [block Hblock].
    destruct (IH (acc ++ [block])%list) as [blocks [Hrest Hlen]].
    exists (block :: blocks). split.
    + cbn [append_image_blocks]. rewrite Hblock. simpl.
      rewrite Hrest. by rewrite <- app_assoc.
    + simpl. by rewrite Hlen.
Qed.

Lemma analysis_request_ok self image_data :
  Forall image_ok (normalize_images image_data) ->
  exists blocks,
    length blocks = length (normalize_images image_data) /\
    analysis_request self image_data
    = Return (completion_request self
                (_get_system_prompt (count_of image_data))
                (TextBlock (_get_user_prompt (count_of image_data)) :: blocks)
                (count_of image_data)).
Proof.
  intros Hok.
  destruct (append_image_blocks_ok _
              [TextBlock (_get_user_prompt (count_of image_data))] Hok)
    as [blocks [Happ Hlen]].
  exists blocks. split; [done |].
  unfold analysis_request. fold (count_of image_data). by rewrite Happ.
Qed.

(** Every request the analysis builds has the shape of [completion_request]. *)
Lemma analysis_request_inv self image_data request :
  analysis_request self image_data = Return request ->
  exists user_content,
    request = completion_request self
                (_get_system_prompt (count_of image_data)) user_content
                (count_of image_data).
Proof.
  unfold analysis_request. fold (count_of image_data).
  destruct (append_image_blocks _ _) as [user_content | e]; simpl; [| done].
  intros [= <-]. eauto.
Qed.

(** Once the request is built, the analysis is the model call on that
    request followed by the reading of the response. *)
Lemma analyze_after_request self image_data request :
  analysis_request self image_data = Return request ->
  analyze_building_risks json_loads create self image_data
  = try_except
      (response ← create (client self) request;
       read_response json_loads response (count_of image_data))
      reraise.
Proof. unfold analyze_building_risks. by intros ->. Qed.

Lemma read_response_content response choice rest text n :
  no_error response ->
  choices response = choice :: rest ->
  message_content_of choice = Some text ->
  str_nonempty text = true ->
  read_response json_loads response n = parse_content json_loads text n.
Proof.
  intros Herr Hchoices Hcontent Hne.
  assert (read_content json_loads response n = parse_content json_loads text n)
    as Hread.
  { unfold read_content. rewrite Hchoices. simpl. by rewrite Hcontent, Hne. }
  unfold read_response, no_error in *.
  destruct (error response) as [err |]; [by rewrite Herr |]; done.
Qed.

Lemma analyze_reads_text self image_data request text :
  analysis_request self image_data = Return request ->
  replies_with (create (client self) request) (Some text) ->
  str_nonempty text = true ->
  analyze_building_risks json_loads create self image_data
  = try_except (parse_content json_loads text (count_of image_data)) reraise.
Proof.
  intros Hreq (response & choice & rest & Hcall & Herr & Hchoices & Hcontent) Hne.
  rewrite (analyze_after_request _ _ _ Hreq), Hcall. simpl.
  by rewrite (read_response_content _ _ _ _ _ Herr Hchoices Hcontent Hne).
Qed.

(** Whatever leaves the analysis as an exception was raised by the handler
    of the outer [try]. *)
Lemma analyze_raise_inv self image_data e :
  analyze_building_risks json_loads create self image_data = Raise e ->
  exists cause, e = analysis_failed cause.
Proof.
  unfold analyze_building_risks, try_except.
  destruct (_ ≫= _) as [v | cause]; [done |].
  intros [= <-]. by exists cause.
Qed.

End ServiceFacts.

(** ** Parsed answers and the fallback *)

Section Parsing.

Variable json_loads : string -> outcome json.
Variable create : AzureOpenAI -> chat_request -> outcome chat_response.

Implicit Types (self : t) (image_data : image_arg) (request : chat_request)
  (text pre body post : string).

(** C1.  When the reply is prose without an opening brace, then one braced
    JSON object, then prose without a closing brace, the span from the first
    opening brace to the last closing brace is that object, and the analysis
    returns what [json.loads] makes of it, whatever its fields are: nothing
    is changed and nothing is checked against the result schema. *)
Theorem analyze_returns_parsed_object self image_data request pre body post
    (parsed : json) :
  analysis_request self image_data = Return request ->
  replies_with (create (client self) request)
               (Some (pre +:+ "{" +:+ body +:+ "}" +:+ post)) ->
  str_contains "{" pre = false ->
  str_contains "}" post = false ->
  json_loads ("{" +:+ body +:+ "}") = Return parsed ->
  json_span (pre +:+ "{" +:+ body +:+ "}" +:+ post) = "{" +:+ body +:+ "}" /\
  analyze_building_risks json_loads create self image_data = Return parsed.
Proof.
  intros Hreq Hreply Hpre Hpost Hparsed.
  assert (json_span (pre +:+ "{" +:+ body +:+ "}" +:+ post)
          = "{" +:+ body +:+ "}") as Hspan
    by exact (json_span_object pre body post Hpre Hpost).
  split; [exact Hspan |].
  rewrite (analyze_reads_text _ _ _ _ _ _ Hreq Hreply).
  - unfold parse_content. rewrite Hspan.
    change (str_nonempty ("{" +:+ body +:+ "}")) with true.
    cbn iota. by rewrite Hparsed.
  - by destruct pre.
Qed.

End Parsing.

Lemma analyze_returns_parsed_object_witness :
  json_span Reference.scenario_reply
  = "{" +:+ Reference.scenario_members +:+ "}" /\
  analyze_building_risks Reference.json_loads
    (Reference.replying Reference.scenario_reply)
    Reference.service (ImageList Reference.three_pictures)
  = Return Reference.scenario_object.
Proof.
  eapply (analyze_returns_parsed_object Reference.json_loads
            (Reference.replying Reference.scenario_reply)
            Reference.service (ImageList Reference.three_pictures) _
            Reference.scenario_prose Reference.scenario_members EmptyString).
  - vm_compute. reflexivity.
  - eexists _, _, _. repeat split; reflexivity.
  - reflexivity.
  - reflexivity.
  - vm_compute. reflexivity.
Defined.

Section Fallback.

Variable json_loads : string -> outcome json.
Variable create : AzureOpenAI -> chat_request -> outcome chat_response.

Implicit Types (self : t) (image_data : image_arg) (request : chat_request)
  (text : string).

Lemma parse_content_decode_error text n cause :
  json_loads (json_span text) = Raise cause ->
  is_JSONDecodeError cause = true ->
  parse_content json_loads text n = Return (_create_fallback_response text n).
Proof.
  intros Hraise Hcls. unfold parse_content.
  destruct (str_nonempty (json_span text)); [| done].
  rewrite Hraise. simpl. by rewrite Hcls.
Qed.

Lemma parse_content_empty_span text n :
  json_span text = EmptyString ->
  parse_content json_loads text n = Return (_create_fallback_response text n).
Proof. intros Hspan. unfold parse_content. by rewrite Hspan. Qed.

(** The inner handler is for [JSONDecodeError] alone: an exception of
    another class raised by the parser reaches the outer handler. *)
Lemma parse_content_other_error text n cause :
  str_nonempty (json_span text) = true ->
  json_loads (json_span text) = Raise cause ->
  is_JSONDecodeError cause = false ->
  try_except (parse_content json_loads text n) reraise
  = Raise (analysis_failed cause).
Proof.
  intros Hspan Hraise Hcls. unfold parse_content.
  rewrite Hspan, Hraise. simpl. by rewrite Hcls.
Qed.

(** C2.  For a non-empty reply a failure to parse never leaves the analysis
    as an exception.  When [json.loads] rejects the brace span with a
    [JSONDecodeError], or the span is empty, the analysis returns the
    fallback result.  In particular, for a reply without an opening brace
    ([json.loads] rejecting the lone closing brace the span may then be) the
    result is the fallback, with [raw_response] the reply itself and
    [images_analyzed] the number of images. *)
Theorem analyze_absorbs_parse_failure self image_data request text :
  analysis_request self image_data = Return request ->
  replies_with (create (client self) request) (Some text) ->
  str_nonempty text = true ->
  let result := analyze_building_risks json_loads create self image_data in
  let fallback := _create_fallback_response text (count_of image_data) in
  (forall cause,
      json_loads (json_span text) = Raise cause ->
      is_JSONDecodeError cause = true ->
      result = Return fallback) /\
  (json_span text = EmptyString -> result = Return fallback) /\
  (str_contains "{" text = false ->
   (exists cause,
       json_loads "}" = Raise cause /\ is_JSONDecodeError cause = true) ->
   result = Return fallback /\
   dict_get "raw_response" fallback = Some (JStr text) /\
   dict_get "images_analyzed" fallback = Some (JInt (count_of image_data))).
Proof.
  intros Hreq Hreply Hne result fallback. subst result fallback.
  rewrite (analyze_reads_text _ _ _ _ _ _ Hreq Hreply Hne).
  split; [| split].
  - intros cause Hraise Hcls.
    by rewrite (parse_content_decode_error _ _ _ Hraise Hcls).
  - intros Hspan. by rewrite (parse_content_empty_span _ _ Hspan).
  - intros Hno [cause [Hraise Hcls]]. split; [| split; reflexivity].
    destruct (json_span_no_lbrace text Hno) as [Hspan | Hspan].
    + by rewrite (parse_content_empty_span _ _ Hspan).
    + rewrite (parse_content_decode_error _ _ cause); [done | | done].
      by rewrite Hspan.
Qed.

(** C3.  The fallback result for the reply [text] and [n] images: level
    MEDIUM, score 5, [n] images analyzed, one generic finding, the five
    categories and no other, each MEDIUM with no observation and no concern,
    one generic recommendation, nothing further needed, a summary sentence
    naming [n], and the reply itself as [raw_response]. *)
Theorem fallback_response_shape text (n : Z) :
  let r := _create_fallback_response text n in
  dict_get "overall_risk_level" r = Some (JStr "MEDIUM") /\
  dict_get "risk_score" r = Some (JInt 5) /\
  dict_get "images_analyzed" r = Some (JInt n) /\
  dict_get "key_findings" r
  = Some (JList [JStr "Analysis completed - see detailed response"]) /\
  (exists categories,
      dict_get "detailed_assessment" r = Some categories /\
      dict_keys categories
      = ["fire_safety"; "structural"; "security"; "water_damage";
         "environmental"] /\
      Forall (fun name =>
                dict_get name categories
                = Some (JDict [("risk_level", JStr "MEDIUM");
                               ("observations", JList []);
                               ("concerns", JList [])]))
             (dict_keys categories)) /\
  dict_get "recommendations" r = Some (JList [JStr "Review detailed analysis"]) /\
  dict_get "additional_information_needed" r = Some (JList []) /\
  dict_get "image_analysis_summary" r
  = Some (JStr ("Analysis of " +:+ pretty n +:+ " building image"
                +:+ (if 1 <? n then "s" else EmptyString) +:+ " completed")) /\
  dict_get "raw_response" r = Some (JStr text) /\
  dict_keys r
  = ["overall_risk_level"; "risk_score"; "images_analyzed"; "key_findings";
     "raw_response"; "detailed_assessment"; "recommendations";
     "additional_information_needed"; "image_analysis_summary"].
Proof.
  cbv zeta. repeat split; try reflexivity.
  eexists. split; [reflexivity |]. split; [reflexivity |].
  repeat constructor.
Qed.

End Fallback.

Lemma analyze_absorbs_parse_failure_witness :
  let reply := "I cannot parse this." in
  let result :=
    analyze_building_risks Reference.json_loads (Reference.replying reply)
      Reference.service (ImageList [Reference.png "front.png" "QUJD" 3]) in
  result = Return (_create_fallback_response reply 1) /\
  dict_get "raw_response" (_create_fallback_response reply 1)
  = Some (JStr reply) /\
  dict_get "images_analyzed" (_create_fallback_response reply 1)
  = Some (JInt 1).
Proof.
  cbv zeta.
  eapply (analyze_absorbs_parse_failure Reference.json_loads
            (Reference.replying "I cannot parse this.") Reference.service
            (ImageList [Reference.png "front.png" "QUJD" 3])).
  - vm_compute. reflexivity.
  - eexists _, _, _. repeat split; reflexivity.
  - reflexivity.
  - reflexivity.
  - eexists. split; [vm_compute; reflexivity | reflexivity].
Defined.

(** ** Failures of the analysis *)

Section Failures.

Variable json_loads : string -> outcome json.
Variable create : AzureOpenAI -> chat_request -> outcome chat_response.

Implicit Types (self : t) (image_data : image_arg) (request : chat_request)
  (response : chat_response).

(** C4.  A failure before a result is parsed leaves the analysis as one
    exception of class [Exception], the text [Risk analysis failed: ...],
    whose context is the original error: for an error reported by the
    provider, for a missing or empty content, and for an exception of the
    transport.  Every exception that leaves the analysis has this form. *)
Theorem analyze_raises_only_analysis_failed self image_data :
  let result := analyze_building_risks json_loads create self image_data in
  (forall request response err,
      analysis_request self image_data = Return request ->
      create (client self) request = Return response ->
      error response = Some err ->
      py_truthy err = true ->
      result
      = Raise (analysis_failed
                 (PyExc ExceptionClass
                        ("Azure OpenAI API Error: " +:+ py_str err) None))) /\
  (forall request content,
      analysis_request self image_data = Return request ->
      replies_with (create (client self) request) content ->
      opt_truthy content = false ->
      result
      = Raise (analysis_failed
                 (PyExc ExceptionClass
                        "No response content received from Azure OpenAI" None))) /\
  (forall request cause,
      analysis_request self image_data = Return request ->
      create (client self) request = Raise cause ->
      result = Raise (analysis_failed cause)) /\
  (forall e,
      result = Raise e ->
      exc_cls e = ExceptionClass /\
      exists cause,
        exc_context e = Some cause /\
        exc_str e = "Risk analysis failed: " +:+ exc_str cause).
Proof.
  cbv zeta. split; [| split; [| split]].
  - intros request response err Hreq Hcall Herr Htruthy.
    rewrite (analyze_after_request _ _ _ _ _ Hreq), Hcall. simpl.
    unfold read_response. by rewrite Herr, Htruthy.
  - intros request content Hreq
      (response & choice & rest & Hcall & Herr & Hchoices & Hcontent) Hfalsy.
    rewrite (analyze_after_request _ _ _ _ _ Hreq), Hcall. simpl.
    assert (read_content json_loads response (count_of image_data)
            = Raise (PyExc ExceptionClass
                       "No response content received from Azure OpenAI" None))
      as Hread.
    { unfold read_content. rewrite Hchoices. simpl. rewrite Hcontent.
      destruct content as [text |]; [| done].
      simpl in Hfalsy. by rewrite Hfalsy. }
    unfold read_response, no_error in *.
    destruct (error response) as [err |]; [rewrite Herr |]; by rewrite Hread.
  - intros request cause Hreq Hcall.
    by rewrite (analyze_after_request _ _ _ _ _ Hreq), Hcall.
  - intros e Hraise.
    apply analyze_raise_inv in Hraise as [cause ->].
    split; [done | by exists cause].
Qed.

(** C5.  The probe answers [True] exactly when the transport returns a
    completion whose first choice has a text in which [OK] occurs; it
    answers [False] when the transport raises and when the completion has no
    choice to read.  Being a boolean, it never raises. *)
Theorem health_check_reports_ok self :
  (health_check create self = true <->
   exists response choice rest text,
     create (client self) (health_request self) = Return response /\
     choices response = choice :: rest /\
     message_content_of choice = Some text /\
     exists pre post, text = pre +:+ "OK" +:+ post) /\
  (forall e,
      create (client self) (health_request self) = Raise e ->
      health_check create self = false) /\
  (forall response,
      create (client self) (health_request self) = Return response ->
      choices response = [] ->
      health_check create self = false).
Proof.
  unfold health_check. split; [split | split].
  - destruct (create _ _) as [response | e]; simpl; [| done].
    destruct (choices response) as [| choice rest] eqn:Hchoices; simpl; [done |].
    intros Hok. apply str_contains_iff in Hok as [pre [post Htext]].
    destruct (message_content_of choice) as [text |] eqn:Hcontent.
    + exists response, choice, rest, text. simpl in Htext. eauto 10.
    + simpl in Htext. destruct pre; discriminate.
  - intros (response & choice & rest & text & -> & Hchoices & Hcontent & Hsub).
    simpl. rewrite Hchoices. simpl. rewrite Hcontent. simpl.
    by apply str_contains_iff.
  - by intros e ->.
  - intros response -> Hchoices. simpl. by rewrite Hchoices.
Qed.

End Failures.

Lemma analyze_raises_only_analysis_failed_witness :
  analyze_building_risks Reference.json_loads Reference.unreachable
    Reference.service (ImageList Reference.three_pictures)
  = Raise (analysis_failed
             (PyExc (OtherError "APIConnectionError") "Connection error." None)).
Proof.
  pose proof (analyze_raises_only_analysis_failed Reference.json_loads
                Reference.unreachable Reference.service
                (ImageList Reference.three_pictures)) as H.
  cbv zeta in H. destruct H as (_ & _ & H & _).
  eapply H; vm_compute; reflexivity.
Defined.

Lemma health_check_reports_ok_witness :
  health_check (Reference.replying "OK") Reference.service = true /\
  health_check Reference.unreachable Reference.service = false.
Proof.
  split.
  - apply (proj1 (health_check_reports_ok (Reference.replying "OK")
                    Reference.service)).
    eexists _, _, _, _. repeat split; try reflexivity.
    by exists EmptyString, EmptyString.
  - eapply (proj1 (proj2 (health_check_reports_ok Reference.unreachable
                            Reference.service))).
    reflexivity.
Defined.

(** ** Construction *)

Lemma opt_truthy_false (value : option string) :
  opt_truthy value = false <-> absent value.
Proof.
  unfold absent. destruct value as [[| a s] |]; simpl; split;
    (done || (intros [H | H]; done) || auto).
Qed.

(** C6.  [__init__] raises exactly when one of the endpoint, the key and the
    deployment name is absent from the environment, and what it raises is
    the configuration error.  A service that was constructed holds the three
    values of the environment, none of them absent, so the error belongs to
    construction: what a later analysis raises has class [Exception], and
    the probe answers with a boolean. *)
Theorem init_raises_iff_value_absent (environ : gmap string string) :
  let endpoint_value := getenv environ "4.1_OPENAI_ENDPOINT" in
  let api_key_value := getenv environ "4.1_OPENAI_API_KEY" in
  let deployment_value := getenv environ "4.1_OPENAI_DEPLOYMENT_NAME" in
  ((exists e, __init__ environ = Raise e) <->
   absent endpoint_value \/ absent api_key_value \/ absent deployment_value) /\
  (forall e,
      __init__ environ = Raise e ->
      e = PyExc ValueError
            "Missing Azure OpenAI configuration. Please check your .env file."
            None) /\
  (forall self,
      __init__ environ = Return self ->
      endpoint self = endpoint_value /\ ~ absent endpoint_value /\
      api_key self = api_key_value /\ ~ absent api_key_value /\
      deployment self = deployment_value /\ ~ absent deployment_value) /\
  (forall json_loads create self image_data e,
      analyze_building_risks json_loads create self image_data = Raise e ->
      exc_cls e = ExceptionClass).
Proof.
  cbv zeta. unfold __init__. cbn [forallb].
  set (ev := getenv environ "4.1_OPENAI_ENDPOINT").
  set (kv := getenv environ "4.1_OPENAI_API_KEY").
  set (dv := getenv environ "4.1_OPENAI_DEPLOYMENT_NAME").
  pose proof (opt_truthy_false ev) as He.
  pose proof (opt_truthy_false kv) as Hk.
  pose proof (opt_truthy_false dv) as Hd.
  split; [| split; [| split]].
  - destruct (opt_truthy ev), (opt_truthy kv), (opt_truthy dv); cbn [andb negb];
      (split; [intros [e H]; first [discriminate H | tauto] |]);
      intros H; first [by eexists | exfalso; intuition discriminate].
  - intros e H.
    destruct (negb _); [by injection H as <- | discriminate H].
  - intros self H.
    destruct (opt_truthy ev), (opt_truthy kv), (opt_truthy dv);
      cbn [andb negb] in H; try discriminate H.
    injection H as <-. cbn. intuition discriminate.
  - intros json_loads create self image_data e H.
    apply analyze_raise_inv in H as [cause ->]. reflexivity.
Qed.

Lemma init_raises_iff_value_absent_witness :
  exists e, __init__ (delete "4.1_OPENAI_API_KEY" Reference.configured) = Raise e.
Proof.
  apply (proj2 (proj1 (init_raises_iff_value_absent
                         (delete "4.1_OPENAI_API_KEY" Reference.configured)))).
  right. left. left. vm_compute. reflexivity.
Defined.

(** ** The request *)

Section Request.

Implicit Types (self : t) (image_data : image_arg) (request : chat_request)
  (images : list image).

(** C7.  The request of an analysis has a budget of 2000 tokens for one
    image and of 3000 tokens for more than one, the temperature 0.3 and the
    deployment of the service as its model; and this request is the one the
    analysis passes to the model. *)
Theorem completion_request_parameters self image_data request :
  analysis_request self image_data = Return request ->
  (count_of image_data = 1 -> max_tokens request = 2000) /\
  (1 < count_of image_data -> max_tokens request = 3000) /\
  temperature request = (3 # 10)%Q /\
  model request = deployment self /\
  (forall json_loads create,
      analyze_building_risks json_loads create self image_data
      = try_except
          (response ← create (client self) request;
           read_response json_loads response (count_of image_data))
          reraise).
Proof.
  intros Hreq.
  destruct (analysis_request_inv _ _ _ Hreq) as [user_content ->].
  cbn [max_tokens temperature model completion_request].
  split; [| split; [| split; [| split]]]; try reflexivity.
  - by intros ->.
  - intros Hmany. by destruct (Z.ltb_spec 1 (count_of image_data)); [| lia].
  - intros json_loads create. by apply analyze_after_request.
Qed.

(** C8.  For more than one image the user prompt differs from the prompt
    for one image, and the decimal numeral of the count occurs in it. *)
Theorem user_prompt_names_count (n : Z) :
  1 < n ->
  _get_user_prompt 1 <> _get_user_prompt n /\
  str_contains (pretty n) (_get_user_prompt n) = true.
Proof.
  intros Hn. unfold _get_user_prompt.
  destruct (Z.ltb_spec 1 n); [| lia]. change (1 <? 1) with false. cbv iota.
  split.
  - generalize (pretty n +:+ " building images for comprehensive insurance underwriting risk assessment. These images show different angles and aspects of the same building. Provide a thorough evaluation considering all visible risk factors across all images.").
    intros rest Heq. apply (f_equal (String.get 17)) in Heq.
    vm_compute in Heq. discriminate Heq.
  - apply str_contains_iff. by eexists _, _.
Qed.

(** C9.  The request is built for every number of well-formed image
    records, none and more than ten included: the user content is the prompt
    followed by one block per image, the analysis goes on to the model call
    with that request, and the fallback result exists for that count. *)
Theorem request_built_for_every_count self images :
  Forall image_ok images ->
  let n := Z.of_nat (length images) in
  exists blocks,
    length blocks = length images /\
    analysis_request self (ImageList images)
    = Return (completion_request self (_get_system_prompt n)
                (TextBlock (_get_user_prompt n) :: blocks) n) /\
    (forall json_loads create,
        analyze_building_risks json_loads create self (ImageList images)
        = try_except
            (response ← create (client self)
                          (completion_request self (_get_system_prompt n)
                             (TextBlock (_get_user_prompt n) :: blocks) n);
             read_response json_loads response n)
            reraise) /\
    (forall text,
        dict_get "images_analyzed" (_create_fallback_response text n)
        = Some (JInt n)).
Proof.
  intros Hok n.
  destruct (analysis_request_ok self (ImageList images) Hok)
    as [blocks [Hlen Hreq]].
  exists blocks. split; [done |]. split; [done |]. split; [| done].
  intros json_loads create.
  by rewrite (analyze_after_request _ _ _ _ _ Hreq).
Qed.

(** C10.  A record passed without a list is first put in a list of one
    element: the call is the call on that list, with one image counted, the
    prompt for one image and 2000 tokens, and for a well-formed record the
    request is built. *)
Theorem single_image_is_one_image_list self (img : image) :
  normalize_images (SingleImage img) = [img] /\
  count_of (SingleImage img) = 1 /\
  analysis_request self (SingleImage img)
  = analysis_request self (ImageList [img]) /\
  (forall json_loads create,
      analyze_building_risks json_loads create self (SingleImage img)
      = analyze_building_risks json_loads create self (ImageList [img])) /\
  (image_ok img ->
   exists block,
     image_url_block img = Return block /\
     analysis_request self (SingleImage img)
     = Return (completion_request self (_get_system_prompt 1)
                 [TextBlock (_get_user_prompt 1); block] 1) /\
     _get_user_prompt 1
     = "Please analyze this building image for insurance underwriting risk assessment. Provide a comprehensive evaluation of all visible risk factors." /\
     max_tokens (completion_request self (_get_system_prompt 1)
                   [TextBlock (_get_user_prompt 1); block] 1) = 2000).
Proof.
  split; [done |]. split; [done |]. split; [done |]. split; [done |].
  intros Hok. destruct (image_url_block_ok img Hok) as [block Hblock].
  exists block. split; [done |]. split; [| done].
  unfold analysis_request. cbn [normalize_images length append_image_blocks].
  by rewrite Hblock.
Qed.

End Request.

Lemma completion_request_parameters_witness :
  exists request,
    analysis_request Reference.service (ImageList Reference.three_pictures)
    = Return request /\
    max_tokens request = 3000 /\
    temperature request = (3 # 10)%Q /\
    model request = Some "gpt-4.1".
Proof.
  eexists. split; [vm_compute; reflexivity |].
  destruct (completion_request_parameters Reference.service
              (ImageList Reference.three_pictures) _ eq_refl)
    as (_ & Hmany & Htemp & Hmodel & _).
  split; [apply Hmany; reflexivity |]. split; [exact Htemp | exact Hmodel].
Defined.

Lemma user_prompt_names_count_witness :
  _get_user_prompt 1 <> _get_user_prompt 12 /\
  str_contains "12" (_get_user_prompt 12) = true.
Proof. apply (user_prompt_names_count 12). reflexivity. Defined.

Lemma request_built_for_every_count_witness :
  (exists request,
      analysis_request Reference.service (ImageList []) = Return request) /\
  (exists request,
      analysis_request Reference.service
        (ImageList (replicate 11 (Reference.png "front.png" "QUJD" 3)))
      = Return request).
Proof.
  split.
  - destruct (request_built_for_every_count Reference.service [])
      as (blocks & _ & Hreq & _); [constructor |].
    eexists. exact Hreq.
  - destruct (request_built_for_every_count Reference.service
                (replicate 11 (Reference.png "front.png" "QUJD" 3)))
      as (blocks & _ & Hreq & _).
    + apply Forall_replicate. split; eexists; vm_compute; reflexivity.
    + eexists. exact Hreq.
Defined.

Lemma single_image_is_one_image_list_witness :
  exists block,
    analysis_request Reference.service
      (SingleImage (Reference.png "front.png" "QUJD" 3))
    = Return (completion_request Reference.service (_get_system_prompt 1)
                [TextBlock (_get_user_prompt 1); block] 1).
Proof.
  destruct (single_image_is_one_image_list Reference.service
              (Reference.png "front.png" "QUJD" 3))
    as (_ & _ & _ & _ & Hbuilt).
  destruct Hbuilt as (block & _ & Hreq & _).
  - split; eexists; vm_compute; reflexivity.
  - exists block. exact Hreq.
Defined.

(** ** Scenarios

    The service run on concrete replies, with the reference parser. *)

Section Scenarios.

Let one_picture : image_arg := ImageList [Reference.png "front.png" "QUJD" 3].

Let analyze (reply : string) (image_data : image_arg) : outcome json :=
  analyze_building_risks Reference.json_loads (Reference.replying reply)
    Reference.service image_data.

Example span_of_prose_and_object :
  json_span "Result: {a} done" = "{a}" /\
  json_span "no braces" = EmptyString /\
  json_span "ends with }" = "}" /\
  json_span "} before {" = EmptyString /\
  json_span "{ never closed" = EmptyString.
Proof. repeat split; reflexivity. Qed.

Example unexpected_fields_pass_through :
  analyze ("Sure. {" +:+ quoted "risk_score" +:+ ": " +:+ quoted "very high"
           +:+ ", " +:+ quoted "extra" +:+ ": [1, 2.5, null]} Bye.")
          one_picture
  = Return (JDict [("risk_score", JStr "very high");
                   ("extra", JList [JInt 1; JFloat "2.5"; JNull])]).
Proof. vm_compute. reflexivity. Qed.

Example no_braces_scenario :
  analyze "I cannot parse this." one_picture
  = Return (_create_fallback_response "I cannot parse this." 1).
Proof. vm_compute. reflexivity. Qed.

Example malformed_object_falls_back :
  analyze "{not json}" one_picture
  = Return (_create_fallback_response "{not json}" 1).
Proof. vm_compute. reflexivity. Qed.

Example two_objects_fall_back :
  analyze "{} and {}" one_picture
  = Return (_create_fallback_response "{} and {}" 1).
Proof. vm_compute. reflexivity. Qed.

Example closing_brace_only_falls_back :
  analyze "done }" one_picture
  = Return (_create_fallback_response "done }" 1).
Proof. vm_compute. reflexivity. Qed.

Example missing_key_is_wrapped :
  analyze "{}" (SingleImage {[ "base64" := PStr "QUJD" ]})
  = Raise (analysis_failed (PyExc KeyError "'type'" None)).
Proof. vm_compute. reflexivity. Qed.

Example empty_content_is_wrapped :
  analyze EmptyString one_picture
  = Raise (analysis_failed
             (PyExc ExceptionClass
                    "No response content received from Azure OpenAI" None)).
Proof. vm_compute. reflexivity. Qed.

Example singular_prompt_has_no_count :
  str_contains "1" (_get_user_prompt 1) = false /\
  _get_user_prompt 0 = _get_user_prompt 1.
Proof. split; reflexivity. Qed.

Example fallback_summary_wording :
  dict_get "image_analysis_summary" (_create_fallback_response "x" 1)
  = Some (JStr "Analysis of 1 building image completed") /\
  dict_get "image_analysis_summary" (_create_fallback_response "x" 3)
  = Some (JStr "Analysis of 3 building images completed").
Proof. split; reflexivity. Qed.

Example configured_service :
  __init__ Reference.configured = Return Reference.service.
Proof. vm_compute. reflexivity. Qed.

Example empty_value_is_rejected :
  __init__ (<["4.1_OPENAI_ENDPOINT" := EmptyString]> Reference.configured)
  = Raise (PyExc ValueError
             "Missing Azure OpenAI configuration. Please check your .env file."
             None).
Proof. vm_compute. reflexivity. Qed.

End Scenarios.

(** * Further properties of the service *)

(** ** The brace span in general *)

Section SpanFacts.

Implicit Types (s pre post body rest : string) (c a : ascii) (i : Z).

(** A text either lacks the character, or splits at its first occurrence. *)
Lemma first_occurrence c s :
  str_contains (String c EmptyString) s = false \/
  exists pre post,
    s = pre +:+ String c post /\ str_contains (String c EmptyString) pre = false.
Proof.
  induction s as [|a s IH]; [by left |].
  rewrite str_contains_cons.
  destruct (Ascii.eqb_spec a c) as [-> | Hne].
  - right. by exists EmptyString, s.
  - destruct IH as [Hs | [pre [post [-> Hpre]]]].
    + left. by rewrite Hs.
    + right. exists (String a pre), post. split; [done |].
      rewrite str_contains_cons, Hpre.
      by destruct (Ascii.eqb_spec a c).
Qed.

Lemma rfind_from_range c s i :
  0 <= i ->
  rfind_from (String c EmptyString) s i = -1 \/
  i <= rfind_from (String c EmptyString) s i < i + str_len s.
Proof.
  revert i. induction s as [|a s IH]; intros i Hi; [by left |].
  cbn [rfind_from]. rewrite startswith_char, str_len_cons.
  pose proof (str_len_nonneg s).
  destruct (IH (i + 1)) as [-> | Hin]; [lia | |].
  - change (0 <=? -1) with false. cbv iota.
    destruct (Ascii.eqb a c); [right; lia | by left].
  - destruct (Z.leb_spec 0 (rfind_from (String c EmptyString) s (i + 1)));
      [right; lia | lia].
Qed.

Lemma rfind_from_app_absent c s1 s2 i :
  str_contains (String c EmptyString) s2 = false ->
  rfind_from (String c EmptyString) (s1 +:+ s2) i
  = rfind_from (String c EmptyString) s1 i.
Proof.
  intros H2. revert i. induction s1 as [|a s1 IH]; intros i.
  - rewrite str_append_nil. by rewrite rfind_from_absent.
  - rewrite str_append_cons. cbn [rfind_from].
    by rewrite IH, !startswith_char.
Qed.

(** When no closing brace follows the first opening brace, the span is
    empty. *)
Lemma json_span_unclosed pre rest :
  str_contains lbrace pre = false ->
  str_contains rbrace rest = false ->
  json_span (pre +:+ String "{" rest) = EmptyString.
Proof.
  intros Hpre Hrest. unfold json_span, str_find, str_rfind, lbrace, rbrace in *.
  rewrite find_from_first by done.
  replace (pre +:+ String "{" rest) with (pre +:+ "{" +:+ rest) by done.
  rewrite <- str_append_assoc, rfind_from_app_absent by done.
  rewrite str_append_assoc.
  pose proof (str_len_nonneg pre). pose proof (str_len_nonneg rest).
  assert (rfind_from "}" (pre +:+ "{") 0 < str_len pre) as Hlast.
  { rewrite rfind_from_app_absent by done.
    destruct (rfind_from_range "}" pre 0) as [-> | Hin]; lia. }
  assert (-1 <= rfind_from "}" (pre +:+ "{") 0) as Hlow.
  { destruct (rfind_from_range "}" (pre +:+ "{") 0) as [-> | Hin]; lia. }
  unfold str_slice. rewrite !str_len_app, str_len_cons.
  change (str_len EmptyString) with 0.
  rewrite !slice_bound_inside by lia.
  by destruct (Z.ltb_spec (0 + str_len pre)
                          (rfind_from "}" (pre +:+ "{") 0 + 1)); [lia |].
Qed.

(** X1.  The span of any reply is one of three things: empty; the lone
    closing brace that ends a reply without opening brace; or the stretch
    from the first opening brace to the last closing brace, the reply being
    prose without opening brace, that stretch, and prose without closing
    brace. *)
Theorem json_span_trichotomy s :
  json_span s = EmptyString \/
  (json_span s = "}" /\ str_contains "{" s = false /\
   exists pre, s = pre +:+ "}") \/
  (exists pre body post,
      s = pre +:+ "{" +:+ body +:+ "}" +:+ post /\
      str_contains "{" pre = false /\
      str_contains "}" post = false /\
      json_span s = "{" +:+ body +:+ "}").
Proof.
  destruct (first_occurrence "{" s) as [Hno | [pre [rest [-> Hpre]]]].
  - destruct (last_occurrence "}" s) as [Hr | [pre [post [-> Hpost]]]].
    + left. by apply json_span_no_braces.
    + rewrite json_span_rbrace_only by done.
      destruct post as [|b post]; [| by left].
      right. left. split; [done |]. split; [done |]. by exists pre.
  - destruct (last_occurrence "}" rest) as [Hr | [body [post [-> Hpost]]]].
    + left. by apply json_span_unclosed.
    + right. right. exists pre, body, post.
      split; [done |]. split; [done |]. split; [done |].
      by apply json_span_object.
Qed.

End SpanFacts.

(** ** Outcomes of the analysis *)

Section Outcomes.

Variable json_loads : string -> outcome json.
Variable create : AzureOpenAI -> chat_request -> outcome chat_response.

Implicit Types (self : t) (image_data : image_arg) (images : list image)
  (request : chat_request) (response : chat_response) (text : string).

Lemma reraise_return_inv (m : outcome json) (v : json) :
  try_except m reraise = Return v -> m = Return v.
Proof. by destruct m. Qed.

(** X2.  A reply whose first opening brace is followed by no closing brace,
    as an object cut short is, gives the fallback result, whatever the
    parser would do: it is not called. *)
Theorem unclosed_object_falls_back self image_data request pre rest :
  analysis_request self image_data = Return request ->
  replies_with (create (client self) request) (Some (pre +:+ "{" +:+ rest)) ->
  str_contains "{" pre = false ->
  str_contains "}" rest = false ->
  analyze_building_risks json_loads create self image_data
  = Return (_create_fallback_response (pre +:+ "{" +:+ rest)
              (count_of image_data)).
Proof.
  intros Hreq Hreply Hpre Hrest.
  rewrite (analyze_reads_text _ _ _ _ _ _ Hreq Hreply) by (by destruct pre).
  unfold parse_content.
  replace (json_span (pre +:+ "{" +:+ rest)) with EmptyString; [done |].
  symmetry. by apply json_span_unclosed.
Qed.

(** X3.  Whatever the analysis returns came from a completion without
    error whose first choice has a non-empty text, and is either what the
    parser returned for the span of that text or the fallback for that text
    and the number of images. *)
Theorem analyze_returns_parsed_or_fallback self image_data (result : json) :
  analyze_building_risks json_loads create self image_data = Return result ->
  exists request text,
    analysis_request self image_data = Return request /\
    replies_with (create (client self) request) (Some text) /\
    str_nonempty text = true /\
    (json_loads (json_span text) = Return result \/
     result = _create_fallback_response text (count_of image_data)).
Proof.
  unfold analyze_building_risks. fold (count_of image_data).
  destruct (analysis_request self image_data) as [request | e] eqn:Hreq;
    [| done].
  simpl. destruct (create (client self) request) as [response | e] eqn:Hcall;
    [| done].
  simpl. intros Hres. apply reraise_return_inv in Hres.
  assert (no_error response /\
          read_content json_loads response (count_of image_data) = Return result)
    as [Herr Hread].
  { unfold read_response, no_error in *.
    destruct (error response) as [err |]; [| done].
    by destruct (py_truthy err). }
  clear Hres.
  unfold read_content in Hread.
  destruct (choices response) as [| choice rest] eqn:Hchoices; [done |].
  simpl in Hread.
  destruct (message_content_of choice) as [text |] eqn:Hcontent; [| done].
  destruct (str_nonempty text) eqn:Hne; [| done]. simpl in Hread.
  exists request, text. split; [done |]. split.
  { by exists response, choice, rest. }
  split; [done |].
  unfold parse_content in Hread.
  destruct (str_nonempty (json_span text)).
  - destruct (json_loads (json_span text)) as [v | e]; simpl in Hread.
    + left. by injection Hread as ->.
    + right. destruct (is_JSONDecodeError e); [| done].
      by injection Hread as <-.
  - right. by injection Hread as <-.
Qed.

(** What the loop over the images has appended when it ends. *)
Lemma append_image_blocks_inv images (acc user_content : list content_block) :
  append_image_blocks acc images = Return user_content ->
  exists blocks,
    user_content = (acc ++ blocks)%list /\
    Forall2 (fun (img : image) block =>
               exists type base64,
                 img !! "type" = Some type /\ img !! "base64" = Some base64 /\
                 block = ImageUrlBlock
                           ("data:" +:+ py_str type +:+ ";base64,"
                            +:+ py_str base64) "high")
            images blocks.
Proof.
  revert acc user_content.
  induction images as [| img images IH]; intros acc user_content Hrun.
  - injection Hrun as <-. exists []. by rewrite app_nil_r.
  - cbn [append_image_blocks] in Hrun. unfold image_url_block, dict_index in Hrun.
    destruct (img !! "type") as [type |] eqn:Htype; [| done].
    destruct (img !! "base64") as [base64 |] eqn:Hbase64; [| done].
    simpl in Hrun. destruct (IH _ _ Hrun) as [blocks [-> Hall]].
    eexists (_ :: blocks). split; [by rewrite <- app_assoc |].
    constructor; [| done]. by exists type, base64.
Qed.

(** X4.  In the request, the user message is the prompt followed by one
    block per image, in the order of the images; each block marks the image
    for high detail and names it by the data URL made of its [type] and
    [base64] entries. *)
Theorem request_blocks_follow_images self image_data request :
  analysis_request self image_data = Return request ->
  exists blocks,
    messages request
    = [ {| role := "system";
           content := TextContent (_get_system_prompt (count_of image_data)) |};
        {| role := "user";
           content := BlockContent
             (TextBlock (_get_user_prompt (count_of image_data)) :: blocks) |} ] /\
    Forall2 (fun (img : image) block =>
               exists type base64,
                 img !! "type" = Some type /\ img !! "base64" = Some base64 /\
                 block = ImageUrlBlock
                           ("data:" +:+ py_str type +:+ ";base64,"
                            +:+ py_str base64) "high")
            (normalize_images image_data) blocks.
Proof.
  unfold analysis_request. fold (count_of image_data).
  destruct (append_image_blocks _ (normalize_images image_data))
    as [user_content | e] eqn:Hrun; [| done].
  simpl. intros [= <-].
  destruct (append_image_blocks_inv _ _ _ Hrun) as [blocks [-> Hall]].
  by exists blocks.
Qed.

(** X5.  The request depends on an image through its [type] and [base64]
    entries alone: lists of records that agree on these two, image by image,
    give the same request, whatever their names, sizes or further keys. *)
Theorem request_reads_type_and_base64_only self images1 images2 :
  Forall2 (fun img1 img2 : image =>
             img1 !! "type" = img2 !! "type" /\
             img1 !! "base64" = img2 !! "base64")
          images1 images2 ->
  analysis_request self (ImageList images1)
  = analysis_request self (ImageList images2) /\
  analyze_building_risks json_loads create self (ImageList images1)
  = analyze_building_risks json_loads create self (ImageList images2).
Proof.
  intros Hagree.
  assert (analysis_request self (ImageList images1)
          = analysis_request self (ImageList images2)) as Hreq.
  { unfold analysis_request. cbn [normalize_images].
    rewrite (Forall2_length _ _ _ Hagree).
    generalize [TextBlock (_get_user_prompt (Z.of_nat (length images2)))].
    generalize (Z.of_nat (length images2)) as n. intros n.
    assert (forall acc,
               append_image_blocks acc images1 = append_image_blocks acc images2)
      as Hloop.
    { induction Hagree as [| img1 img2 rest1 rest2 [Htype Hbase64] _ IH];
        intros acc; [done |].
      cbn [append_image_blocks]. unfold image_url_block, dict_index.
      rewrite Htype, Hbase64.
      destruct (img2 !! "type"); [| done].
      destruct (img2 !! "base64"); [| done]. simpl. apply IH. }
    intros acc. by rewrite Hloop. }
  split; [done |].
  unfold analyze_building_risks. cbn [normalize_images].
  by rewrite Hreq, (Forall2_length _ _ _ Hagree).
Qed.

End Outcomes.

(** ** Failures in detail *)

Section FailureDetails.

Variable json_loads : string -> outcome json.
Variable create : AzureOpenAI -> chat_request -> outcome chat_response.

Implicit Types (self : t) (image_data : image_arg) (images : list image)
  (request : chat_request) (response : chat_response).

Lemma append_image_blocks_app images rest (acc : list content_block) :
  Forall image_ok images ->
  exists blocks,
    append_image_blocks acc (images ++ rest)
    = append_image_blocks (acc ++ blocks)%list rest.
Proof.
  intros Hok. revert acc.
  induction Hok as [| img images Himg _ IH]; intros acc.
  - exists []. by rewrite app_nil_r.
  - destruct (image_url_block_ok img Himg) as [block Hblock].
    destruct (IH (acc ++ [block])%list) as [blocks Hrest].
    exists (block :: blocks). cbn [app append_image_blocks].
    rewrite Hblock. simpl. rewrite Hrest. by rewrite <- app_assoc.
Qed.

(** X6.  When a record lacks [type] or [base64], the analysis raises the
    wrapped [KeyError] of the first such record, for [type] when both are
    missing, and the model is not called: the outcome is the same for every
    transport and every parser. *)
Theorem missing_key_stops_before_call self (good rest : list image)
    (bad : image) :
  Forall image_ok good ->
  ~ image_ok bad ->
  let key :=
    match bad !! "type" with
    | Some _ => "base64"
    | None => "type"
    end in
  analyze_building_risks json_loads create self
    (ImageList (good ++ bad :: rest))
  = Raise (analysis_failed (PyExc KeyError ("'" +:+ key +:+ "'") None)).
Proof.
  intros Hgood Hbad key.
  assert (image_url_block bad
          = Raise (PyExc KeyError ("'" +:+ key +:+ "'") None)) as Hblock.
  { unfold image_url_block, dict_index. subst key.
    destruct (bad !! "type") as [type |] eqn:Htype; [| done].
    destruct (bad !! "base64") as [base64 |] eqn:Hbase64; [| done].
    exfalso. apply Hbad. split; by eexists. }
  unfold analyze_building_risks, analysis_request. cbn [normalize_images].
  destruct (append_image_blocks_app good (bad :: rest)
              [TextBlock (_get_user_prompt
                            (Z.of_nat (length (good ++ bad :: rest))))] Hgood)
    as [blocks ->].
  cbn [append_image_blocks]. by rewrite Hblock.
Qed.

(** X7.  An [error] attribute that is falsy (None, the empty text, zero,
    False) is ignored: the analysis goes on as for the same completion
    without the attribute. *)
Theorem falsy_error_is_ignored self image_data request response (err : pyval) :
  analysis_request self image_data = Return request ->
  create (client self) request = Return response ->
  error response = Some err ->
  py_truthy err = false ->
  analyze_building_risks json_loads create self image_data
  = analyze_building_risks json_loads
      (fun _ _ => Return {| error := None; choices := choices response |})
      self image_data.
Proof.
  intros Hreq Hcall Herr Hfalsy.
  rewrite !(analyze_after_request _ _ _ _ _ Hreq), Hcall. simpl.
  unfold read_response. cbn [error]. by rewrite Herr, Hfalsy.
Qed.

(** X8.  A completion without error and without any choice makes the
    analysis raise the wrapped [IndexError] of [choices[0]]. *)
Theorem no_choice_is_wrapped_index_error self image_data request response :
  analysis_request self image_data = Return request ->
  create (client self) request = Return response ->
  no_error response ->
  choices response = [] ->
  analyze_building_risks json_loads create self image_data
  = Raise (analysis_failed (PyExc IndexError "list index out of range" None)).
Proof.
  intros Hreq Hcall Herr Hchoices.
  rewrite (analyze_after_request _ _ _ _ _ Hreq), Hcall. simpl.
  assert (read_content json_loads response (count_of image_data)
          = Raise (PyExc IndexError "list index out of range" None)) as Hread.
  { unfold read_content. by rewrite Hchoices. }
  unfold read_response, no_error in *.
  destruct (error response) as [err |]; [rewrite Herr |]; by rewrite Hread.
Qed.

End FailureDetails.

(** X9.  A service that [__init__] built from an environment uses that
    environment's values: the client holds its endpoint and key with the
    fixed API version, and every request of the service, for an analysis or
    for the probe, names the environment's deployment, which is not empty. *)
Theorem constructed_service_uses_environment (environ : gmap string string)
    (self : t) :
  __init__ environ = Return self ->
  client self
  = {| azure_endpoint := environ !! "4.1_OPENAI_ENDPOINT";
       client_api_key := environ !! "4.1_OPENAI_API_KEY";
       client_api_version := "2024-04-01-preview" |} /\
  (exists name,
      environ !! "4.1_OPENAI_DEPLOYMENT_NAME" = Some name /\
      name <> EmptyString /\
      model (health_request self) = Some name /\
      forall image_data request,
        analysis_request self image_data = Return request ->
        model request = Some name).
Proof.
  unfold __init__, getenv. cbn [forallb].
  destruct (environ !! "4.1_OPENAI_DEPLOYMENT_NAME") as [name |] eqn:Hname.
  2:{ cbn [opt_truthy]. rewrite !andb_false_r. done. }
  destruct name as [| a name].
  { cbn [opt_truthy str_nonempty]. rewrite !andb_false_r. done. }
  destruct (negb _); [done |]. intros [= <-]. split; [done |].
  exists (String a name). split; [done |]. split; [done |]. split; [done |].
  intros image_data request Hreq.
  destruct (analysis_request_inv _ _ _ Hreq) as [user_content ->]. done.
Qed.

(** ** The system prompt *)

Lemma str_contains_app_l sub s1 s2 :
  str_contains sub s1 = true -> str_contains sub (s1 +:+ s2) = true.
Proof.
  rewrite !str_contains_iff. intros [pre [post ->]].
  exists pre, (post +:+ s2). by rewrite !str_append_assoc.
Qed.

Lemma str_contains_app_r sub s1 s2 :
  str_contains sub s2 = true -> str_contains sub (s1 +:+ s2) = true.
Proof.
  rewrite !str_contains_iff. intros [pre [post ->]].
  exists (s1 +:+ pre), post. by rewrite !str_append_assoc.
Qed.

Lemma str_contains_concat sub sep (line : string) (lines : list string) :
  In line lines ->
  str_contains sub line = true ->
  str_contains sub (String.concat sep lines) = true.
Proof.
  intros Hin Hsub. induction lines as [| l lines IH]; [done |].
  destruct lines as [| l' lines].
  - destruct Hin as [-> | []]. done.
  - change (String.concat sep (l :: l' :: lines))
      with (l +:+ sep +:+ String.concat sep (l' :: lines)).
    destruct Hin as [-> | Hin].
    + by apply str_contains_app_l.
    + apply str_contains_app_r, str_contains_app_r. by apply IH.
Qed.

(** X10.  For every count the system prompt names the count in its opening
    sentence, and the template it asks the model to fill has the count as
    the value of [images_analyzed]. *)
Theorem system_prompt_names_count (n : Z) :
  str_contains ("You are analyzing " +:+ pretty n +:+ " image")
               (_get_system_prompt n) = true /\
  str_contains ("  " +:+ quoted "images_analyzed" +:+ ": " +:+ pretty n +:+ ",")
               (_get_system_prompt n) = true.
Proof.
  unfold _get_system_prompt. split.
  - eapply str_contains_concat.
    + right. left. reflexivity.
    + apply str_contains_iff. eexists EmptyString, _.
      rewrite str_append_nil, !str_append_assoc. reflexivity.
  - eapply str_contains_concat.
    + do 48 right. left. reflexivity.
    + apply str_contains_iff. eexists EmptyString, EmptyString.
      by rewrite str_append_nil, str_append_empty.
Qed.

(** ** Witnesses of the further properties *)

Lemma unclosed_object_falls_back_witness :
  analyze_building_risks Reference.json_loads
    (Reference.replying "The result is {cut short")
    Reference.service (ImageList Reference.three_pictures)
  = Return (_create_fallback_response "The result is {cut short" 3).
Proof.
  eapply (unclosed_object_falls_back Reference.json_loads
            (Reference.replying "The result is {cut short") Reference.service
            (ImageList Reference.three_pictures) _ "The result is " "cut short").
  - vm_compute. reflexivity.
  - eexists _, _, _. repeat split; reflexivity.
  - reflexivity.
  - reflexivity.
Defined.

Lemma analyze_returns_parsed_or_fallback_witness :
  exists request text,
    analysis_request Reference.service (ImageList Reference.three_pictures)
    = Return request /\
    replies_with (Reference.replying Reference.scenario_reply
                    (client Reference.service) request) (Some text) /\
    str_nonempty text = true /\
    (Reference.json_loads (json_span text) = Return Reference.scenario_object \/
     Reference.scenario_object = _create_fallback_response text 3).
Proof.
  apply (analyze_returns_parsed_or_fallback Reference.json_loads
           (Reference.replying Reference.scenario_reply) Reference.service
           (ImageList Reference.three_pictures) Reference.scenario_object).
  vm_compute. reflexivity.
Defined.

Lemma request_blocks_follow_images_witness :
  exists request blocks,
    analysis_request Reference.service (ImageList Reference.three_pictures)
    = Return request /\
    messages request
    = [ {| role := "system"; content := TextContent (_get_system_prompt 3) |};
        {| role := "user";
           content := BlockContent (TextBlock (_get_user_prompt 3) :: blocks) |} ] /\
    length blocks = 3%nat.
Proof.
  eexists.
  destruct (request_blocks_follow_images Reference.service
              (ImageList Reference.three_pictures) _ eq_refl)
    as [blocks [Hmessages Hall]].
  exists blocks. split; [vm_compute; reflexivity |]. split; [exact Hmessages |].
  symmetry. exact (Forall2_length _ _ _ Hall).
Defined.

Lemma request_reads_type_and_base64_only_witness :
  analysis_request Reference.service
    (ImageList [Reference.png "front.png" "QUJD" 3])
  = analysis_request Reference.service
      (ImageList [<["camera" := PStr "phone"]>
                    (Reference.png "renamed.png" "QUJD" 4096)]).
Proof.
  apply (request_reads_type_and_base64_only Reference.json_loads
           Reference.unreachable Reference.service
           [Reference.png "front.png" "QUJD" 3]
           [<["camera" := PStr "phone"]>
              (Reference.png "renamed.png" "QUJD" 4096)]).
  repeat constructor.
Defined.

Lemma missing_key_stops_before_call_witness :
  analyze_building_risks Reference.json_loads
    (Reference.replying Reference.scenario_reply) Reference.service
    (ImageList [Reference.png "front.png" "QUJD" 3;
                {[ "type" := PStr "image/png"; "name" := PStr "side.png" ]};
                Reference.png "roof.png" "R0hJ" 3])
  = Raise (analysis_failed (PyExc KeyError "'base64'" None)).
Proof.
  assert (Forall image_ok [Reference.png "front.png" "QUJD" 3]) as Hgood
    by (repeat constructor; eexists; vm_compute; reflexivity).
  assert (~ image_ok ({[ "type" := PStr "image/png";
                         "name" := PStr "side.png" ]} : image)) as Hbad
    by (intros [_ [v Hv]]; vm_compute in Hv; discriminate Hv).
  exact (missing_key_stops_before_call Reference.json_loads
           (Reference.replying Reference.scenario_reply) Reference.service
           [Reference.png "front.png" "QUJD" 3]
           [Reference.png "roof.png" "R0hJ" 3]
           {[ "type" := PStr "image/png"; "name" := PStr "side.png" ]}
           Hgood Hbad).
Defined.

Lemma falsy_error_is_ignored_witness :
  let response :=
    {| error := Some PNone;
       choices := [ {| message_content_of := Some "{}" |} ] |} in
  analyze_building_risks Reference.json_loads (Fixtures.answering response)
    Reference.service (ImageList Reference.three_pictures)
  = analyze_building_risks Reference.json_loads
      (fun _ _ => Return {| error := None; choices := choices response |})
      Reference.service (ImageList Reference.three_pictures).
Proof.
  cbv zeta.
  eapply (falsy_error_is_ignored Reference.json_loads
            (Fixtures.answering
               {| error := Some PNone;
                  choices := [ {| message_content_of := Some "{}" |} ] |})
            Reference.service (ImageList Reference.three_pictures)).
  - vm_compute. reflexivity.
  - reflexivity.
  - reflexivity.
  - reflexivity.
Defined.

Lemma no_choice_is_wrapped_index_error_witness :
  analyze_building_risks Reference.json_loads
    (Fixtures.answering {| error := None; choices := [] |})
    Reference.service (ImageList Reference.three_pictures)
  = Raise (analysis_failed (PyExc IndexError "list index out of range" None)).
Proof.
  eapply (no_choice_is_wrapped_index_error Reference.json_loads
            (Fixtures.answering {| error := None; choices := [] |})
            Reference.service (ImageList Reference.three_pictures)).
  - vm_compute. reflexivity.
  - reflexivity.
  - exact I.
  - reflexivity.
Defined.

Lemma constructed_service_uses_environment_witness :
  model (health_request Reference.service) = Some "gpt-4.1".
Proof.
  destruct (constructed_service_uses_environment Reference.configured
              Reference.service)
    as (_ & name & Hname & _ & Hmodel & _).
  - vm_compute. reflexivity.
  - rewrite Hmodel, <- Hname. vm_compute. reflexivity.
Defined.

(** * Properties of the application *)

Import BuildingRiskAnalyzer.

Section AppFacts.

Variable json_loads : string -> outcome json.
Variable create : AzureOpenAI -> chat_request -> outcome chat_response.
Variable pil_image : Type.
Variable image_open : upload -> outcome pil_image.
Variable save_png : pil_image -> outcome (list Byte.byte).
Variable b64encode : list Byte.byte -> string.
Variable now : Z.
Variable columns_error : py_exception.
Variable display_results : json -> list st_call * outcome unit.

Implicit Types (self : BuildingRiskAnalyzer.t) (input : interaction)
  (files good rest : list upload) (w : page).

Let handle_file_upload :=
  _handle_file_upload json_loads create pil_image image_open save_png
    b64encode now columns_error display_results.

Let perform_analysis :=
  _perform_analysis json_loads create pil_image image_open save_png b64encode
    now display_results.

Lemma showing_app w (shown1 shown2 : list st_call) :
  showing (showing w shown1) shown2 = showing w (shown1 ++ shown2).
Proof. unfold showing. simpl. by rewrite <- app_assoc. Qed.

Lemma emit_showing (c : st_call) w : emit c w = (Return tt, showing w [c]).
Proof. done. Qed.

(** The columns made for [n] uploads hold the column of every position
    modulo four. *)
Lemma column_of_position (n idx : nat) :
  (idx < n)%nat ->
  list_index (map Column (seq 0 (n `min` 4))) (idx mod 4)
  = Return (Column (idx mod 4)).
Proof.
  intros Hidx. unfold list_index.
  assert (idx mod 4 < n `min` 4)%nat as Hlt.
  { pose proof (Nat.mod_upper_bound idx 4).
    destruct (Nat.le_gt_cases 4 n); [lia |].
    rewrite Nat.mod_small by lia. lia. }
  rewrite list_lookup_fmap, lookup_seq_lt by done. done.
Qed.

Lemma show_uploads_ok (n idx : nat) files w :
  (idx + length files <= n)%nat ->
  Forall (fun file => exists picture, image_open file = Return picture) files ->
  show_uploads pil_image image_open (map Column (seq 0 (n `min` 4))) idx files w
  = (Return tt, showing w (preview_calls idx files)).
Proof.
  intros Hn Hopen. revert idx w Hn.
  induction Hopen as [| file files [picture Hpic] _ IH]; intros idx w Hn.
  - unfold showing. simpl. rewrite app_nil_r. by destruct w.
  - simpl in Hn. cbn [show_uploads preview_calls].
    unfold mbind at 1, ui_bind, lift.
    rewrite column_of_position by lia.
    unfold mbind at 1, ui_bind, within.
    rewrite emit_showing. unfold mbind at 1, ui_bind, lift. rewrite Hpic.
    rewrite !emit_showing. cbn [snd].
    rewrite IH by lia. by rewrite !showing_app.
Qed.

Lemma show_uploads_unreadable (n idx : nat) good rest (bad : upload) w
    (e : py_exception) :
  (idx + length good < n)%nat ->
  Forall (fun file => exists picture, image_open file = Return picture) good ->
  image_open bad = Raise e ->
  show_uploads pil_image image_open (map Column (seq 0 (n `min` 4))) idx
    (good ++ bad :: rest) w
  = (Raise e,
     showing w (preview_calls idx good
                ++ [st_enter (Column ((idx + length good) mod 4));
                    st_leave (Column ((idx + length good) mod 4))])).
Proof.
  intros Hn Hopen Hbad. revert idx w Hn.
  induction Hopen as [| file files [picture Hpic] _ IH]; intros idx w Hn.
  - simpl in Hn. cbn [app show_uploads preview_calls length].
    rewrite Nat.add_0_r in *.
    unfold mbind at 1, ui_bind, lift.
    rewrite column_of_position by lia.
    unfold mbind at 1, ui_bind, within.
    rewrite emit_showing. unfold mbind at 1, ui_bind, lift. rewrite Hbad.
    rewrite !emit_showing. cbn [snd]. by rewrite !showing_app.
  - simpl in Hn. cbn [app show_uploads preview_calls length].
    unfold mbind at 1, ui_bind, lift.
    rewrite column_of_position by lia.
    unfold mbind at 1, ui_bind, within.
    rewrite emit_showing. unfold mbind at 1, ui_bind, lift. rewrite Hpic.
    rewrite !emit_showing. cbn [snd].
    rewrite IH by lia. rewrite !showing_app.
    replace (S idx + length files)%nat with (idx + S (length files))%nat by lia.
    done.
Qed.

(** X11.  For more than ten uploads the page shows the one error about the
    maximum and nothing else: no picture, no button, no analysis, whatever
    the clicks, and the session state stays as it was. *)
Theorem more_than_ten_uploads_rejected self input files w :
  (10 < length files)%nat ->
  handle_file_upload self input files w
  = (Return tt, showing w [st_error "Please upload a maximum of 10 images"]).
Proof.
  intros Hmany. unfold handle_file_upload, _handle_file_upload.
  by destruct (Nat.ltb_spec 10 (length files)); [| lia].
Qed.

(** X12.  For one to ten uploads that the imaging library can open, the
    preview never fails on a column: [min(n, 4)] columns are made, each
    upload is shown once, in order, in the column of its position modulo
    four, then the Analyze button; the analysis runs on these uploads when
    the button was clicked, and nothing more happens when it was not. *)
Theorem preview_places_every_upload self input files w :
  files <> [] ->
  (length files <= 10)%nat ->
  Forall (fun file => exists picture, image_open file = Return picture) files ->
  let shown :=
    ([st_subheader "📸 Uploaded Images"; st_columns (length files `min` 4)]
     ++ preview_calls 0 files
     ++ [st_button "🔍 Analyze Building Risks"])%list in
  handle_file_upload self input files w
  = if analyze_clicked input
    then perform_analysis self files (showing w shown)
    else (Return tt, showing w shown).
Proof.
  intros Hne Hfew Hopen shown. subst shown.
  unfold handle_file_upload, perform_analysis, _handle_file_upload.
  destruct (Nat.ltb_spec 10 (length files)); [lia |].
  unfold mbind at 1, ui_bind. rewrite emit_showing.
  unfold mbind at 1, ui_bind, columns.
  unfold mbind at 1, ui_bind. rewrite emit_showing.
  destruct (Nat.min (length files) 4) as [| k] eqn:Hk.
  { destruct files; [done | simpl in Hk; lia]. }
  rewrite <- Hk. unfold mret, ui_ret.
  unfold mbind at 1, ui_bind.
  rewrite (show_uploads_ok (length files)) by (done || lia).
  unfold mbind at 1, ui_bind, button.
  unfold mbind at 1, ui_bind. rewrite emit_showing. unfold mret, ui_ret.
  rewrite !showing_app. simpl app.
  by destruct (analyze_clicked input).
Qed.

(** X13.  The preview has no handler: when the imaging library cannot open
    one of at most ten uploads, its exception leaves
    [_handle_file_upload]; the uploads before it were shown, the Analyze
    button is not, and the session state stays as it was. *)
Theorem unreadable_upload_escapes_preview self input good rest (bad : upload)
    w (e : py_exception) :
  (length (good ++ bad :: rest) <= 10)%nat ->
  Forall (fun file => exists picture, image_open file = Return picture) good ->
  image_open bad = Raise e ->
  handle_file_upload self input (good ++ bad :: rest) w
  = (Raise e,
     showing w
       ([st_subheader "📸 Uploaded Images";
         st_columns (length (good ++ bad :: rest) `min` 4)]
        ++ preview_calls 0 good
        ++ [st_enter (Column (length good mod 4));
            st_leave (Column (length good mod 4))])%list).
Proof.
  intros Hfew Hopen Hbad.
  unfold handle_file_upload, _handle_file_upload.
  destruct (Nat.ltb_spec 10 (length (good ++ bad :: rest))); [lia |].
  unfold mbind at 1, ui_bind. rewrite emit_showing.
  unfold mbind at 1, ui_bind, columns.
  unfold mbind at 1, ui_bind. rewrite emit_showing.
  destruct (Nat.min (length (good ++ bad :: rest)) 4) as [| k] eqn:Hk.
  { rewrite length_app in Hk. simpl in Hk. lia. }
  rewrite <- Hk. unfold mret, ui_ret.
  unfold mbind at 1, ui_bind.
  rewrite (show_uploads_unreadable (length (good ++ bad :: rest)) 0 good rest
             bad _ e); [| rewrite length_app; simpl; lia | done | done].
  rewrite !showing_app. done.
Qed.

End AppFacts.

Section AppAnalysis.

Variable json_loads : string -> outcome json.
Variable create : AzureOpenAI -> chat_request -> outcome chat_response.
Variable pil_image : Type.
Variable image_open : upload -> outcome pil_image.
Variable save_png : pil_image -> outcome (list Byte.byte).
Variable b64encode : list Byte.byte -> string.
Variable now : Z.
Variable display_results : json -> list st_call * outcome unit.

Implicit Types (self : BuildingRiskAnalyzer.t) (files : list upload) (w : page)
  (records : list image) (service : AzureOpenAIService.t).

Let perform_analysis :=
  _perform_analysis json_loads create pil_image image_open save_png b64encode
    now display_results.

Let prepare := prepare_images pil_image image_open save_png b64encode.

Let analysis_spinner : st_container :=
  Spinner "Analyzing building images for risk assessment...".

(** X14.  The health button never raises and shows one message inside its
    spinner: an error naming the missing attribute when no service was
    built, and with a service the success message when the probe answers
    True and the warning when it answers False. *)
Theorem health_button_reports_state self w :
  _check_service_health create self w
  = (Return tt,
     showing w
       [st_enter (Spinner "Checking service health...");
        match ai_service self with
        | None =>
            st_error "❌ Health check failed: 'NoneType' object has no attribute 'health_check'"
        | Some service =>
            if health_check create service
            then st_success "✅ All services healthy"
            else st_warning "⚠️ Service connectivity issues"
        end;
        st_leave (Spinner "Checking service health...")]).
Proof.
  unfold _check_service_health, within, ui_try, service_of.
  rewrite emit_showing. unfold mbind, ui_bind, lift.
  destruct (ai_service self) as [service |].
  - destruct (health_check create service);
      rewrite !emit_showing; cbn [snd]; by rewrite !showing_app.
  - rewrite !emit_showing. cbn [snd]. by rewrite !showing_app.
Qed.

(** X15.  An analysis that fails before a result exists, in the conversion
    of an upload or in the call of the service, does not raise: inside its
    spinner the page shows the one error [Analysis failed: ...] with the
    text of the exception, and the session state stays as it was. *)
Theorem failed_analysis_shows_one_error self files w (e : py_exception) :
  prepare [] files = Raise e \/
  (exists records service,
      prepare [] files = Return records /\
      ai_service self = Some service /\
      analyze_building_risks json_loads create service (ImageList records)
      = Raise e) ->
  perform_analysis self files w
  = (Return tt,
     showing w [st_enter analysis_spinner;
                st_error ("❌ Analysis failed: " +:+ exc_str e);
                st_leave analysis_spinner]).
Proof.
  unfold perform_analysis, prepare, _perform_analysis, within, ui_try,
    service_of.
  rewrite emit_showing. unfold mbind, ui_bind, lift.
  intros [-> | (records & service & -> & -> & ->)];
    rewrite !emit_showing; cbn [snd]; by rewrite !showing_app.
Qed.

(** X16.  When the service returns a result it is stored in the session
    state, with the time, before it is rendered: the page then shows what
    the rendering shows, and when the rendering raises, the error
    [Analysis failed: ...] after it, the result staying stored. *)
Theorem analysis_result_is_stored_before_display self files w records service
    (result : json) :
  prepare [] files = Return records ->
  ai_service self = Some service ->
  analyze_building_risks json_loads create service (ImageList records)
  = Return result ->
  perform_analysis self files w
  = (Return tt,
     {| calls :=
          (calls w ++ [st_enter analysis_spinner]
           ++ fst (display_results result)
           ++ match snd (display_results result) with
              | Return _ => []
              | Raise e => [st_error ("❌ Analysis failed: " +:+ exc_str e)]
              end
           ++ [st_leave analysis_spinner])%list;
        analysis_result := Some result;
        analysis_timestamp := Some now |}).
Proof.
  intros Hprep Hservice Hresult.
  unfold perform_analysis, prepare, _perform_analysis, within, ui_try,
    service_of in *.
  rewrite emit_showing. unfold mbind, ui_bind, lift.
  rewrite Hprep, Hservice, Hresult.
  unfold store_result, _display_analysis_results, emit, showing. cbn.
  destruct (snd (display_results result)) as [[] | e]; cbn;
    by rewrite <- !app_assoc.
Qed.

Lemma prepare_images_records (acc : list image) files records :
  prepare acc files = Return records ->
  exists new,
    records = (acc ++ new)%list /\
    Forall2 (fun file (record : image) =>
               exists picture buffer,
                 image_open file = Return picture /\
                 save_png picture = Return buffer /\
                 record !! "type" = Some (PStr "image/png") /\
                 record !! "base64" = Some (PStr (b64encode buffer)))
            files new.
Proof.
  unfold prepare. revert acc records.
  induction files as [| file files IH]; intros acc records Hrun.
  - injection Hrun as <-. exists []. by rewrite app_nil_r.
  - cbn [prepare_images] in Hrun. unfold image_record in Hrun.
    destruct (image_open file) as [picture |] eqn:Hopen; [| done].
    simpl in Hrun.
    destruct (save_png picture) as [buffer |] eqn:Hsave; [| done].
    simpl in Hrun. destruct (IH _ _ Hrun) as [new [-> Hall]].
    eexists (_ :: new). split; [by rewrite <- app_assoc |].
    constructor; [| done]. exists picture, buffer.
    split; [done |]. split; [done |]. split; by simplify_map_eq.
Qed.

(** X17.  The records the application makes from its uploads are always
    well formed, and each upload is sent as a PNG whatever it was: the
    request of the service is built, with one block per upload, in order,
    whose URL is [data:image/png;base64,] followed by the base64 text of the
    bytes the imaging library saved. *)
Theorem uploads_are_sent_as_png files records service :
  prepare [] files = Return records ->
  exists request blocks,
    analysis_request service (ImageList records) = Return request /\
    messages request
    = [ {| role := "system";
           content := TextContent
                        (_get_system_prompt (Z.of_nat (length files))) |};
        {| role := "user";
           content := BlockContent
             (TextBlock (_get_user_prompt (Z.of_nat (length files)))
              :: blocks) |} ] /\
    Forall2 (fun file block =>
               exists picture buffer,
                 image_open file = Return picture /\
                 save_png picture = Return buffer /\
                 block = ImageUrlBlock
                           ("data:image/png;base64," +:+ b64encode buffer)
                           "high")
            files blocks.
Proof.
  intros Hprep.
  destruct (prepare_images_records [] files records Hprep) as [new [-> Hall]].
  rewrite app_nil_l.
  assert (Forall image_ok new) as Hok.
  { clear Hprep. induction Hall as [| file record files new Hrec _ IH];
      constructor; [| done].
    destruct Hrec as (picture & buffer & _ & _ & Htype & Hbase64).
    split; by eexists. }
  pose proof (Forall2_length _ _ _ Hall) as Hfiles.
  unfold analysis_request. cbn [normalize_images]. rewrite <- Hfiles.
  destruct (append_image_blocks_ok new
              [TextBlock (_get_user_prompt (Z.of_nat (length files)))] Hok)
    as [blocks [Happ _]].
  rewrite Happ.
  destruct (append_image_blocks_inv _ _ _ Happ) as [blocks' [Heq Hblocks]].
  apply app_inv_head in Heq. subst blocks'.
  eexists _, blocks. split; [reflexivity |]. split; [reflexivity |].
  clear Happ Hok Hprep Hfiles. revert blocks Hblocks.
  induction Hall as [| file record files new Hrec _ IH]; intros blocks Hblocks.
  - inversion Hblocks. constructor.
  - inversion Hblocks as [| ? block ? blocks0 Hblock Hrest]; subst.
    constructor; [| by apply IH].
    destruct Hrec as (picture & buffer & Hopen & Hsave & Htype & Hbase64).
    destruct Hblock as (type & base64 & Htype' & Hbase64' & ->).
    rewrite Htype in Htype'. rewrite Hbase64 in Hbase64'.
    injection Htype' as <-. injection Hbase64' as <-.
    by exists picture, buffer.
Qed.

End AppAnalysis.


Lemma init_raises_when_absent (environ : gmap string string) :
  absent (environ !! "4.1_OPENAI_ENDPOINT") \/
  absent (environ !! "4.1_OPENAI_API_KEY") \/
  absent (environ !! "4.1_OPENAI_DEPLOYMENT_NAME") ->
  __init__ environ
  = Raise (PyExc ValueError
             "Missing Azure OpenAI configuration. Please check your .env file."
             None).
Proof.
  rewrite <- !opt_truthy_false. unfold __init__, getenv. cbn [forallb].
  intros [-> | [-> | ->]]; by rewrite ?andb_false_r.
Qed.

Lemma initialize_service_absent (environ : gmap string string) (w : page) :
  absent (environ !! "4.1_OPENAI_ENDPOINT") \/
  absent (environ !! "4.1_OPENAI_API_KEY") \/
  absent (environ !! "4.1_OPENAI_DEPLOYMENT_NAME") ->
  _initialize_service environ w
  = (Return {| ai_service := None |},
     showing w
       [st_error "❌ Failed to initialize Azure OpenAI service: Missing Azure OpenAI configuration. Please check your .env file.";
        st_info "Please check your .env file configuration"]).
Proof.
  intros Habsent. unfold _initialize_service, ui_try.
  unfold mbind at 1, ui_bind, lift.
  rewrite (init_raises_when_absent environ Habsent).
  cbv [mbind ui_bind mret ui_ret emit showing calls analysis_result
       analysis_timestamp exc_str].
  by rewrite <- app_assoc.
Qed.

(** X18.  When a connection value is absent from the environment, a run of
    the page never raises, keeps the session state, and ends with the error
    that the service is not available; what it shows depends on the click
    on the health button alone: not on the uploads, not on the Analyze
    button, and not on the parser, the transport or the imaging library,
    none of which is used. *)
Theorem missing_configuration_disables_analysis
    (json_loads1 json_loads2 : string -> outcome json)
    (create1 create2 : AzureOpenAI -> chat_request -> outcome chat_response)
    (pil_image1 pil_image2 : Type)
    (image_open1 : upload -> outcome pil_image1)
    (image_open2 : upload -> outcome pil_image2)
    (save_png1 : pil_image1 -> outcome (list Byte.byte))
    (save_png2 : pil_image2 -> outcome (list Byte.byte))
    (b64encode1 b64encode2 : list Byte.byte -> string)
    (now1 now2 : Z) (columns_error1 columns_error2 : py_exception)
    (display1 display2 : json -> list st_call * outcome unit)
    (environ : gmap string string) (input1 input2 : interaction) (w : page) :
  absent (environ !! "4.1_OPENAI_ENDPOINT") \/
  absent (environ !! "4.1_OPENAI_API_KEY") \/
  absent (environ !! "4.1_OPENAI_DEPLOYMENT_NAME") ->
  health_clicked input1 = health_clicked input2 ->
  let result :=
    main json_loads1 create1 pil_image1 image_open1 save_png1 b64encode1 now1
      columns_error1 display1 environ input1 w in
  fst result = Return tt /\
  analysis_result (snd result) = analysis_result w /\
  analysis_timestamp (snd result) = analysis_timestamp w /\
  last (calls (snd result))
  = Some (st_error
            "Service not available. Please configure your environment variables.") /\
  result
  = main json_loads2 create2 pil_image2 image_open2 save_png2 b64encode2 now2
      columns_error2 display2 environ input2 w.
Proof.
  intros Habsent Hclick result. subst result.
  unfold main, mbind, ui_bind.
  rewrite !(initialize_service_absent environ w Habsent).
  unfold run, _render_sidebar, button, _check_service_health, service_of.
  rewrite <- Hclick.
  destruct (health_clicked input1);
    cbv [mbind ui_bind mret ui_ret lift ui_try within emit pass fst snd
         ai_service calls analysis_result analysis_timestamp showing];
    (split; [reflexivity |]); (split; [reflexivity |]);
    (split; [reflexivity |]); (split; [apply last_snoc | reflexivity]).
Qed.

(** ** Witnesses of the properties of the application *)

Lemma more_than_ten_uploads_rejected_witness :
  _handle_file_upload Reference.json_loads Reference.unreachable
    (list Byte.byte) Fixtures.image_open Fixtures.save_png Fixtures.b64encode
    0 Fixtures.columns_error Fixtures.display_results
    {| ai_service := Some Reference.service |}
    {| health_clicked := false;
       uploaded_files := replicate 11 (Fixtures.picture "front.png");
       analyze_clicked := true |}
    (replicate 11 (Fixtures.picture "front.png")) blank_page
  = (Return tt,
     showing blank_page [st_error "Please upload a maximum of 10 images"]).
Proof.
  apply (more_than_ten_uploads_rejected Reference.json_loads
           Reference.unreachable (list Byte.byte) Fixtures.image_open
           Fixtures.save_png Fixtures.b64encode 0 Fixtures.columns_error
           Fixtures.display_results).
  simpl. lia.
Defined.

Lemma preview_places_every_upload_witness :
  let files := [Fixtures.picture "front.png"; Fixtures.picture "side.png"] in
  _handle_file_upload Reference.json_loads Reference.unreachable
    (list Byte.byte) Fixtures.image_open Fixtures.save_png Fixtures.b64encode
    0 Fixtures.columns_error Fixtures.display_results
    {| ai_service := Some Reference.service |} Fixtures.idle files blank_page
  = (Return tt,
     showing blank_page
       [st_subheader "📸 Uploaded Images"; st_columns 2;
        st_enter (Column 0); st_image "front.png"; st_leave (Column 0);
        st_enter (Column 1); st_image "side.png"; st_leave (Column 1);
        st_button "🔍 Analyze Building Risks"]).
Proof.
  cbv zeta.
  apply (preview_places_every_upload Reference.json_loads
           Reference.unreachable (list Byte.byte) Fixtures.image_open
           Fixtures.save_png Fixtures.b64encode 0 Fixtures.columns_error
           Fixtures.display_results
           {| ai_service := Some Reference.service |} Fixtures.idle
           [Fixtures.picture "front.png"; Fixtures.picture "side.png"]
           blank_page).
  - discriminate.
  - simpl. lia.
  - repeat constructor; eexists; reflexivity.
Defined.

Lemma unreadable_upload_escapes_preview_witness :
  fst (_handle_file_upload Reference.json_loads Reference.unreachable
         (list Byte.byte) Fixtures.image_open Fixtures.save_png
         Fixtures.b64encode 0 Fixtures.columns_error Fixtures.display_results
         {| ai_service := Some Reference.service |} Fixtures.idle
         [Fixtures.picture "front.png"; Fixtures.broken "empty.png";
          Fixtures.picture "roof.png"] blank_page)
  = Raise (PyExc (OtherError "UnidentifiedImageError")
                 "cannot identify image file" None).
Proof.
  pose proof (unreadable_upload_escapes_preview Reference.json_loads
                Reference.unreachable (list Byte.byte) Fixtures.image_open
                Fixtures.save_png Fixtures.b64encode 0 Fixtures.columns_error
                Fixtures.display_results
                {| ai_service := Some Reference.service |} Fixtures.idle
                [Fixtures.picture "front.png"] [Fixtures.picture "roof.png"]
                (Fixtures.broken "empty.png") blank_page
                (PyExc (OtherError "UnidentifiedImageError")
                       "cannot identify image file" None)) as Hescape.
  cbn [app] in Hescape. rewrite Hescape.
  - reflexivity.
  - simpl. lia.
  - repeat constructor. eexists. reflexivity.
  - reflexivity.
Defined.

Lemma failed_analysis_shows_one_error_witness :
  _perform_analysis Reference.json_loads Reference.unreachable
    (list Byte.byte) Fixtures.image_open Fixtures.save_png Fixtures.b64encode
    0 Fixtures.display_results {| ai_service := Some Reference.service |}
    [Fixtures.picture "front.png"] blank_page
  = (Return tt,
     showing blank_page
       [st_enter (Spinner "Analyzing building images for risk assessment...");
        st_error "❌ Analysis failed: Risk analysis failed: Connection error.";
        st_leave (Spinner "Analyzing building images for risk assessment...")]).
Proof.
  apply (failed_analysis_shows_one_error Reference.json_loads
           Reference.unreachable (list Byte.byte) Fixtures.image_open
           Fixtures.save_png Fixtures.b64encode 0 Fixtures.display_results
           {| ai_service := Some Reference.service |}
           [Fixtures.picture "front.png"] blank_page
           (analysis_failed
              (PyExc (OtherError "APIConnectionError") "Connection error."
                     None))).
  right. eexists _, Reference.service.
  split; [reflexivity |]. split; [reflexivity |]. vm_compute. reflexivity.
Defined.

Lemma analysis_result_is_stored_before_display_witness :
  snd (_perform_analysis Reference.json_loads
         (Reference.replying Reference.scenario_reply)
         (list Byte.byte) Fixtures.image_open Fixtures.save_png
         Fixtures.b64encode 1700000000 Fixtures.display_results
         {| ai_service := Some Reference.service |}
         [Fixtures.picture "front.png"] blank_page)
  = {| calls :=
         [st_enter (Spinner "Analyzing building images for risk assessment...");
          st_header "Risk Analysis Results";
          st_leave (Spinner "Analyzing building images for risk assessment...")];
       analysis_result := Some Reference.scenario_object;
       analysis_timestamp := Some 1700000000 |}.
Proof.
  rewrite (analysis_result_is_stored_before_display Reference.json_loads
             (Reference.replying Reference.scenario_reply)
             (list Byte.byte) Fixtures.image_open Fixtures.save_png
             Fixtures.b64encode 1700000000 Fixtures.display_results
             {| ai_service := Some Reference.service |}
             [Fixtures.picture "front.png"] blank_page _ Reference.service
             Reference.scenario_object eq_refl eq_refl).
  - reflexivity.
  - vm_compute. reflexivity.
Defined.

Lemma uploads_are_sent_as_png_witness :
  exists request blocks,
    analysis_request Reference.service
      (ImageList [ {[ "base64" := PStr "504e47"; "type" := PStr "image/png";
                      "name" := PStr "front.jpg"; "size" := PInt 3 ]} ])
    = Return request /\
    messages request
    = [ {| role := "system"; content := TextContent (_get_system_prompt 1) |};
        {| role := "user";
           content := BlockContent (TextBlock (_get_user_prompt 1) :: blocks) |} ] /\
    blocks = [ImageUrlBlock "data:image/png;base64,504e47" "high"].
Proof.
  destruct (uploads_are_sent_as_png (list Byte.byte) Fixtures.image_open
              Fixtures.save_png Fixtures.b64encode
              [Fixtures.picture "front.jpg"] _ Reference.service eq_refl)
    as (request & blocks & Hreq & Hmessages & Hblocks).
  exists request, blocks. split; [exact Hreq |]. split; [exact Hmessages |].
  inversion Hblocks as [| ? ? ? ? Hblock Hrest]; subst.
  inversion Hrest; subst.
  destruct Hblock as (picture & buffer & Hopen & Hsave & ->).
  injection Hopen as <-. injection Hsave as <-. reflexivity.
Defined.

Lemma missing_configuration_disables_analysis_witness :
  let environ := delete "4.1_OPENAI_API_KEY" Reference.configured in
  main Reference.json_loads Reference.unreachable (list Byte.byte)
    Fixtures.image_open Fixtures.save_png Fixtures.b64encode 0
    Fixtures.columns_error Fixtures.display_results environ
    {| health_clicked := true;
       uploaded_files := [Fixtures.picture "front.png"];
       analyze_clicked := true |} blank_page
  = main Reference.json_loads (Reference.replying "OK") (list Byte.byte)
      Fixtures.image_open Fixtures.save_png Fixtures.b64encode 1
      Fixtures.columns_error Fixtures.display_results environ
      {| health_clicked := true; uploaded_files := [];
         analyze_clicked := false |} blank_page.
Proof.
  cbv zeta.
  apply (missing_configuration_disables_analysis Reference.json_loads
           Reference.json_loads Reference.unreachable (Reference.replying "OK")
           (list Byte.byte) (list Byte.byte) Fixtures.image_open
           Fixtures.image_open Fixtures.save_png Fixtures.save_png
           Fixtures.b64encode Fixtures.b64encode 0 1 Fixtures.columns_error
           Fixtures.columns_error Fixtures.display_results
           Fixtures.display_results
           (delete "4.1_OPENAI_API_KEY" Reference.configured)).
  - right. left. left. vm_compute. reflexivity.
  - reflexivity.
Defined.
